(** * WebpInput: the WebP reader of src/webp.imageio/webpinput.cpp

    A shallow embedding of the [WebpInput] class: its fields, the memory its
    pointers refer to, and its methods [init], [open], [seek_subimage],
    [read_native_scanline], [current_subimage] and [close], written as
    programs of a small state monad whose second outcome is C++ undefined
    behaviour (use of a deleted object, out-of-bounds access).

    The libraries the class calls into are interfaces (type classes):
    [Filesystem] (OpenImageIO's Filesystem and stdio), [LibWebP] (libwebp's
    demux and decode API) and [ImageBufAlgo] (OpenImageIO's pixel
    operations). Theorems hold for every implementation of them; the
    examples instantiate them with a small in-memory codec.

    Conventions: C [int], [long] and [uint64_t] values are [Z] and their
    arithmetic is exact (overflow of [subimage + 1], [width * 4] and
    [y * m_scanline_size] is not modelled); a byte is a [Z] in [0, 256); a
    pointer is [option nat], [None] being NULL; the
    lifetime of the encoded byte vector that [open] hands to the demuxer is
    not modelled (a frame iterator carries its fragment by value); the lock
    taken by [read_native_scanline] and [current_subimage] is not modelled. *)

From Stdlib Require Import ZArith QArith String List Reals Lra Lia.
From stdpp Require Import gmap strings list fin_maps pretty.

#[local] Open Scope Z_scope.

(** ** Data model *)

(** libwebp's [WebPIterator], restricted to the members the reader uses
    ([fragment] is the [WebPData] byte range of the frame). *)
Record WebPIterator := {
  frame_num : Z;
  num_frames : Z;
  duration : Z;
  fragment : list Z;
}.

Inductive WebPFormatFeature := WEBP_FF_CANVAS_WIDTH | WEBP_FF_CANVAS_HEIGHT.

Inductive TypeDesc := UINT8.

Inductive AttrValue :=
| AttrString (s : string)
| AttrInt (i : Z)
| AttrRational (num den : Z).

Record ImageSpec := {
  width : Z;
  height : Z;
  nchannels : Z;
  format : TypeDesc;
  attributes : gmap string AttrValue;
}.

(** [ImageSpec(xres, yres, nchans, fmt)]. *)
Definition ImageSpec_new (xres yres nchans : Z) (fmt : TypeDesc) : ImageSpec :=
  {| width := xres; height := yres; nchannels := nchans; format := fmt;
     attributes := ∅ |}.

(** [spec.attribute(name, value)]. *)
Definition attribute (name : string) (v : AttrValue) (sp : ImageSpec) : ImageSpec :=
  {| width := width sp; height := height sp; nchannels := nchannels sp;
     format := format sp; attributes := <[name := v]> (attributes sp) |}.

Record ROI := {
  xbegin : Z; xend : Z; ybegin : Z; yend : Z;
  zbegin : Z; zend : Z; chbegin : Z; chend : Z;
}.

(** The messages handed to [errorf]. *)
Inductive ErrorMessage :=
| NotARegularFile (name : string)
| FailedToGetSize (name : string)
| FileSizeLessThanHeader (name : string)
| CouldNotOpenFile (name : string)
| HeaderReadFailure (name : string) (expected got : Z)
| NotAWebPImage (name : string)
| ReadFailure (name : string) (expected got : Z)
| FailedToParse (name : string)
| CouldntDecode (name : string) (frame : Z).

(** ** The libraries the reader calls *)

Class Filesystem := {
  (** [Filesystem::is_regular] *)
  is_regular : string → bool;
  (** [Filesystem::file_size], a [uint64_t]; [2^64 - 1] reports an error *)
  file_size : string → Z;
  (** whether [Filesystem::fopen(name, "rb")] returns a non-NULL handle *)
  fopen : string → bool;
  (** the bytes [fread] delivers when asked for [n] bytes from offset 0 *)
  fread : string → Z → list Z;
}.

Class LibWebP := {
  WebPDemuxer : Type;
  (** [WebPGetInfo(data, size, &width, &height)] *)
  WebPGetInfo : list Z → option (Z * Z);
  (** [WebPDemux(&data)]; [None] is a NULL result *)
  WebPDemux : list Z → option WebPDemuxer;
  WebPDemuxGetI : WebPDemuxer → WebPFormatFeature → Z;
  (** [WebPDemuxGetFrame(dmux, frame_number, &iter)]: the result flag and
      the iterator as the call leaves it; [dmux] may be NULL *)
  WebPDemuxGetFrame : option WebPDemuxer → Z → WebPIterator → bool * WebPIterator;
  WebPDemuxReleaseIterator : WebPIterator → WebPIterator;
  (** [WebPDecodeRGBA(bytes, size, &width, &height)]: width, height and the
      RGBA raster of the malloc'ed result; [None] is a NULL result *)
  WebPDecodeRGBA : list Z → option (Z * Z * list Z);
}.

Class ImageBufAlgo := {
  (** [ImageBufAlgo::pow(buf, buf, b, roi)] on a UINT8 buffer wrapped with
      the given spec *)
  IBA_pow : Q → ROI → ImageSpec → list Z → list Z;
  (** [ImageBufAlgo::premult(buf, buf)] *)
  IBA_premult : ImageSpec → list Z → list Z;
}.

(** ** Outcomes and the state monad *)

Inductive outcome (A : Type) :=
| Ret (a : A)
| Undefined.
Arguments Ret {A} a.
Arguments Undefined {A}.

Section Reader.
Context `{FS : Filesystem} `{WP : LibWebP} `{IBA : ImageBufAlgo}.

(** The object and the memory it points into. [images] holds the live
    malloc'ed rasters, [demuxers] the live demuxer objects, [files] the open
    [FILE] handles; [decode_calls] counts the calls of [WebPDecodeRGBA]
    (a ghost field). [m_spec] and [errors] are members of the base class
    [ImageInput]. *)
Record WebpInput := {
  m_filename : string;
  m_demux : option nat;
  m_iter : WebPIterator;
  m_subimage : Z;
  m_decoded_image : option nat;
  m_image_size : Z;
  m_scanline_size : Z;
  m_file : option nat;
  m_spec : ImageSpec;
  errors : list ErrorMessage;
  images : gmap nat (list Z);
  demuxers : gmap nat WebPDemuxer;
  files : gset nat;
  decode_calls : nat;
}.

Definition with_filename v s := Build_WebpInput v (m_demux s) (m_iter s) (m_subimage s) (m_decoded_image s) (m_image_size s) (m_scanline_size s) (m_file s) (m_spec s) (errors s) (images s) (demuxers s) (files s) (decode_calls s).
Definition with_demux v s := Build_WebpInput (m_filename s) v (m_iter s) (m_subimage s) (m_decoded_image s) (m_image_size s) (m_scanline_size s) (m_file s) (m_spec s) (errors s) (images s) (demuxers s) (files s) (decode_calls s).
Definition with_iter v s := Build_WebpInput (m_filename s) (m_demux s) v (m_subimage s) (m_decoded_image s) (m_image_size s) (m_scanline_size s) (m_file s) (m_spec s) (errors s) (images s) (demuxers s) (files s) (decode_calls s).
Definition with_subimage v s := Build_WebpInput (m_filename s) (m_demux s) (m_iter s) v (m_decoded_image s) (m_image_size s) (m_scanline_size s) (m_file s) (m_spec s) (errors s) (images s) (demuxers s) (files s) (decode_calls s).
Definition with_decoded_image v s := Build_WebpInput (m_filename s) (m_demux s) (m_iter s) (m_subimage s) v (m_image_size s) (m_scanline_size s) (m_file s) (m_spec s) (errors s) (images s) (demuxers s) (files s) (decode_calls s).
Definition with_image_size v s := Build_WebpInput (m_filename s) (m_demux s) (m_iter s) (m_subimage s) (m_decoded_image s) v (m_scanline_size s) (m_file s) (m_spec s) (errors s) (images s) (demuxers s) (files s) (decode_calls s).
Definition with_scanline_size v s := Build_WebpInput (m_filename s) (m_demux s) (m_iter s) (m_subimage s) (m_decoded_image s) (m_image_size s) v (m_file s) (m_spec s) (errors s) (images s) (demuxers s) (files s) (decode_calls s).
Definition with_file v s := Build_WebpInput (m_filename s) (m_demux s) (m_iter s) (m_subimage s) (m_decoded_image s) (m_image_size s) (m_scanline_size s) v (m_spec s) (errors s) (images s) (demuxers s) (files s) (decode_calls s).
Definition with_spec v s := Build_WebpInput (m_filename s) (m_demux s) (m_iter s) (m_subimage s) (m_decoded_image s) (m_image_size s) (m_scanline_size s) (m_file s) v (errors s) (images s) (demuxers s) (files s) (decode_calls s).
Definition with_errors v s := Build_WebpInput (m_filename s) (m_demux s) (m_iter s) (m_subimage s) (m_decoded_image s) (m_image_size s) (m_scanline_size s) (m_file s) (m_spec s) v (images s) (demuxers s) (files s) (decode_calls s).
Definition with_images v s := Build_WebpInput (m_filename s) (m_demux s) (m_iter s) (m_subimage s) (m_decoded_image s) (m_image_size s) (m_scanline_size s) (m_file s) (m_spec s) (errors s) v (demuxers s) (files s) (decode_calls s).
Definition with_demuxers v s := Build_WebpInput (m_filename s) (m_demux s) (m_iter s) (m_subimage s) (m_decoded_image s) (m_image_size s) (m_scanline_size s) (m_file s) (m_spec s) (errors s) (images s) v (files s) (decode_calls s).
Definition with_files v s := Build_WebpInput (m_filename s) (m_demux s) (m_iter s) (m_subimage s) (m_decoded_image s) (m_image_size s) (m_scanline_size s) (m_file s) (m_spec s) (errors s) (images s) (demuxers s) v (decode_calls s).
Definition with_decode_calls v s := Build_WebpInput (m_filename s) (m_demux s) (m_iter s) (m_subimage s) (m_decoded_image s) (m_image_size s) (m_scanline_size s) (m_file s) (m_spec s) (errors s) (images s) (demuxers s) (files s) v.

Definition M (A : Type) : Type := WebpInput → outcome (A * WebpInput).

#[export] Instance M_ret : MRet M := λ A a s, Ret (a, s).
#[export] Instance M_bind : MBind M := λ A B f c s,
  match c s with
  | Ret (a, s') => f a s'
  | Undefined => Undefined
  end.

Definition get : M WebpInput := λ s, Ret (s, s).
Definition modify (f : WebpInput → WebpInput) : M unit := λ s, Ret (tt, f s).
Definition undefined {A} : M A := λ _, Undefined.

(** [errorf(...)]: append a message to the error state of the base class. *)
Definition errorf (e : ErrorMessage) : M unit :=
  modify (λ s, with_errors (errors s ++ [e]) s).

(** ** The memory operations *)

(** [fclose(f)]. *)
Definition fclose (f : nat) : M unit :=
  s ← get;
  if decide (f ∈ files s) then modify (with_files (files s ∖ {[f]}))
  else undefined.

(** [free(p)] of a raster returned by [WebPDecodeRGBA]. *)
Definition free (p : nat) : M unit :=
  s ← get;
  match images s !! p with
  | Some _ => modify (with_images (delete p (images s)))
  | None => undefined
  end.

(** [WebPDemuxDelete(d)], [d] not NULL: the object must be live. *)
Definition demux_delete (d : nat) : M unit :=
  s ← get;
  match demuxers s !! d with
  | Some _ => modify (with_demuxers (delete d (demuxers s)))
  | None => undefined
  end.

(** The object [m_demux] points to: [Some None] for NULL, [None] when the
    pointer dangles. *)
Definition deref_demux (s : WebpInput) : option (option WebPDemuxer) :=
  match m_demux s with
  | None => Some None
  | Some d => match demuxers s !! d with
              | Some dm => Some (Some dm)
              | None => None
              end
  end.

(** [WebPDemuxGetFrame(m_demux, frame_num, &m_iter)]. *)
Definition demux_get_frame (n : Z) : M bool :=
  s ← get;
  match deref_demux s with
  | Some dm =>
      let r := WebPDemuxGetFrame dm n (m_iter s) in
      modify (with_iter (snd r));; mret (fst r)
  | None => undefined
  end.

(** [m_decoded_image = WebPDecodeRGBA(m_iter.fragment.bytes,
    m_iter.fragment.size, &width, &height)]; the result says whether the
    pointer stored is non-NULL. The raster is allocated at a fresh address.
    The fragment is read by value: in the source it is a range of
    [encoded_image], the vector local to [open], and whether that range is
    still allocated when the decoder reads it is not modelled. *)
Definition decode_rgba : M bool :=
  s ← get;
  modify (with_decode_calls (S (decode_calls s)));;
  match WebPDecodeRGBA (fragment (m_iter s)) with
  | Some (_, _, raster) =>
      let p := fresh (dom (images s)) in
      modify (with_images (<[p := raster]> (images s)));;
      modify (with_decoded_image (Some p));;
      mret true
  | None =>
      modify (with_decoded_image None);;
      mret false
  end.

(** ** The methods *)

Definition init : M unit :=
  modify (with_demux None);;
  modify (with_image_size 0);;
  modify (with_scanline_size 0);;
  modify (with_decoded_image None);;
  modify (with_file None);;
  modify (with_subimage (-1)).

Definition current_subimage (s : WebpInput) : Z := m_subimage s.

Definition close : M bool :=
  s ← get;
  match m_file s with
  | Some f => fclose f;; modify (with_file None)
  | None => mret tt
  end;;
  s ← get;
  match m_decoded_image s with
  | Some p => free p;; modify (with_decoded_image None)
  | None => mret tt
  end;;
  s ← get;
  modify (with_iter (WebPDemuxReleaseIterator (m_iter s)));;
  s ← get;
  match m_demux s with
  | Some d => demux_delete d
  | None => mret tt
  end;;
  mret true.

Definition seek_subimage (subimage miplevel : Z) : M bool :=
  if (subimage <? 0) || negb (miplevel =? 0) then mret false
  else
    s ← get;
    if m_subimage s =? subimage then mret true
    else
      let frame_num := subimage + 1 in
      found ← demux_get_frame frame_num;
      if found : bool then
        modify (with_subimage subimage);;
        decoded ← decode_rgba;
        if negb (decoded : bool) then
          s ← get;
          errorf (CouldntDecode (m_filename s) frame_num);;
          close;;
          mret false
        else mret true
      else mret false.

(** [memcpy(data, &m_decoded_image[off], n)]: the caller's buffer after the
    copy. Reading through a NULL or dangling pointer, beyond the raster, or
    writing beyond [data] is undefined. *)
Definition memcpy_from_image (off n : Z) (data : list Z) : M (list Z) :=
  s ← get;
  match m_decoded_image s with
  | None => undefined
  | Some p =>
      match images s !! p with
      | None => undefined
      | Some buf =>
          if (0 <=? off) && (0 <=? n) && (off + n <=? Z.of_nat (length buf))
             && (n <=? Z.of_nat (length data))
          then mret (take (Z.to_nat n) (drop (Z.to_nat off) buf)
                     ++ drop (Z.to_nat n) data)
          else undefined
      end
  end.

(** [data] is the caller's buffer; the result carries it back. *)
Definition read_native_scanline (subimage miplevel y : Z) (data : list Z)
  : M (bool * list Z) :=
  ok ← seek_subimage subimage miplevel;
  if negb (ok : bool) then mret (false, data)
  else
    s ← get;
    if (y <? 0) || (y >=? height (m_spec s)) then mret (false, data)
    else
      data' ← memcpy_from_image (y * m_scanline_size s) (m_scanline_size s) data;
      mret (true, data').

(** [m_file = Filesystem::fopen(m_filename, "rb")]; the result says whether
    the handle is non-NULL. *)
Definition do_fopen (name : string) : M bool :=
  s ← get;
  if fopen name then
    let f := fresh (files s) in
    modify (with_files ({[f]} ∪ files s));;
    modify (with_file (Some f));;
    mret true
  else
    modify (with_file None);;
    mret false.

(** [m_demux = WebPDemux(&data)]; the result is the object created, if any. *)
Definition do_demux (encoded_image : list Z) : M (option WebPDemuxer) :=
  s ← get;
  match WebPDemux encoded_image with
  | Some dm =>
      let d := fresh (dom (demuxers s)) in
      modify (with_demuxers (<[d := dm]> (demuxers s)));;
      modify (with_demux (Some d));;
      mret (Some dm)
  | None =>
      modify (with_demux None);;
      mret None
  end.

(** In-place [ImageBufAlgo] operations, in their order, on [ImageBuf
    bufwrap(specwrap, m_decoded_image)]. The wrapper takes the raster for
    an image of [width * height * nchannels] bytes of [specwrap], whatever
    the decoder allocated: on a raster with fewer bytes the operations run
    beyond it (undefined). Wrapped around NULL the [ImageBuf] owns storage
    of its own, and the session is not affected. *)
Definition on_bufwrap (specwrap : ImageSpec) (ops : list (list Z → list Z))
  : M unit :=
  s ← get;
  match m_decoded_image s with
  | None => mret tt
  | Some p =>
      match images s !! p with
      | Some buf =>
          if width specwrap * height specwrap * nchannels specwrap
             <=? Z.of_nat (length buf)
          then modify (with_images
                         (<[p := foldl (λ b op, op b) buf ops]> (images s)))
          else undefined
      | None => undefined
      end
  end.

Definition open (name : string) (spec : ImageSpec) : M (bool * ImageSpec) :=
  modify (with_filename name);;
  if negb (is_regular name) then
    errorf (NotARegularFile name);; mret (false, spec)
  else
  let size := file_size name in
  modify (with_image_size size);;
  if size =? 2 ^ 64 - 1 then
    errorf (FailedToGetSize name);; mret (false, spec)
  else if size <? 12 then
    errorf (FileSizeLessThanHeader name);; mret (false, spec)
  else
  opened ← do_fopen name;
  if negb (opened : bool) then
    errorf (CouldNotOpenFile name);; mret (false, spec)
  else
  let header_size := Z.min size 64 in
  let image_header := fread name header_size in
  let numRead := Z.of_nat (length image_header) in
  if negb (numRead =? header_size) then
    errorf (HeaderReadFailure name header_size numRead);;
    close;; mret (false, spec)
  else
  (* [hdr_width], [hdr_height]: the locals [width] and [height] of the source *)
  match WebPGetInfo image_header with
  | None => errorf (NotAWebPImage name);; close;; mret (false, spec)
  | Some (hdr_width, hdr_height) =>
  let encoded_image := fread name size in
  let numRead := Z.of_nat (length encoded_image) in
  if negb (numRead =? size) then
    errorf (ReadFailure name size numRead);;
    close;; mret (false, spec)
  else
  dmux ← do_demux encoded_image;
  match dmux with
  | None => errorf (FailedToParse name);; mret (false, spec)
  | Some dm =>
  let canvas_width := WebPDemuxGetI dm WEBP_FF_CANVAS_WIDTH in
  let canvas_height := WebPDemuxGetI dm WEBP_FF_CANVAS_HEIGHT in
  let nchannels := 4 in
  modify (with_scanline_size (hdr_width * nchannels));;
  modify (with_spec (attribute "oiio:ColorSpace" (AttrString "sRGB")
                       (ImageSpec_new canvas_width canvas_height nchannels UINT8)));;
  s ← get;
  let spec := m_spec s in
  ok ← seek_subimage 0 0;
  if negb (ok : bool) then mret (false, spec)
  else
  s ← get;
  (if 1 <? num_frames (m_iter s) then
     modify (with_spec (attribute "oiio:Movie" (AttrInt 1) (m_spec s)));;
     let delay := duration (m_iter s) in
     s ← get;
     modify (with_spec (attribute "FramesPerSecond" (AttrRational 1000 delay)
                          (m_spec s)))
   else mret tt);;
  s ← get;
  let specwrap :=
    ImageSpec_new (width (m_spec s)) (height (m_spec s)) 4 UINT8 in
  let rgbroi :=
    {| xbegin := 0; xend := width (m_spec s);
       ybegin := 0; yend := height (m_spec s);
       zbegin := 0; zend := 1; chbegin := 0; chend := 3 |} in
  on_bufwrap specwrap
    [ IBA_pow (22 # 10) rgbroi specwrap;
      IBA_premult specwrap;
      IBA_pow (1 / (22 # 10)) rgbroi specwrap ];;
  mret (true, spec)
  end
  end.

End Reader.

Arguments WebpInput {WP}.
Arguments M {WP} A.

(** The live container and the live decoded raster of a session: what its
    [m_demux] and [m_decoded_image] point to, if anything. *)
Definition container `{WP : LibWebP} (s : WebpInput) : option WebPDemuxer :=
  d ← m_demux s; demuxers s !! d.
Definition raw_image `{WP : LibWebP} (s : WebpInput) : option (list Z) :=
  p ← m_decoded_image s; images s !! p.

(** The non-NULL pointers of the session refer to live objects. *)
Definition pointers_live `{WP : LibWebP} (s : WebpInput) : bool :=
  match m_file s with
  | Some f => bool_decide (f ∈ files s)
  | None => true
  end
  && match m_decoded_image s with
     | Some p => bool_decide (is_Some (images s !! p))
     | None => true
     end
  && match m_demux s with
     | Some d => bool_decide (is_Some (demuxers s !! d))
     | None => true
     end.

(** Two method calls in a row. *)
Definition twice `{WP : LibWebP} {A} (c : M A) : M A := c;; c.

(** The rows of a raster: [stride] bytes from offset [y * stride]. *)
Definition scanline (buf : list Z) (stride y : Z) : list Z :=
  take (Z.to_nat stride) (drop (Z.to_nat (y * stride)) buf).

(** The object as the constructor [WebpInput() { init(); }] leaves it. The
    constructor does not initialise [m_iter]: [junk] is what it holds. *)
Definition WebpInput_new `{WP : LibWebP} (junk : WebPIterator) : WebpInput :=
  {| m_filename := ""; m_demux := None; m_iter := junk; m_subimage := -1;
     m_decoded_image := None; m_image_size := 0; m_scanline_size := 0;
     m_file := None; m_spec := ImageSpec_new 0 0 0 UINT8; errors := [];
     images := ∅; demuxers := ∅; files := ∅; decode_calls := 0 |}.

(** What lines 154-159 of [open] leave in a raster wrapped as a
    [cw] x [ch] UINT8 image of 4 channels. *)
Definition normalized_at_open `{IBA : ImageBufAlgo} (cw ch : Z) (raster : list Z)
  : list Z :=
  let specwrap := ImageSpec_new cw ch 4 UINT8 in
  let rgbroi :=
    {| xbegin := 0; xend := cw; ybegin := 0; yend := ch;
       zbegin := 0; zend := 1; chbegin := 0; chend := 3 |} in
  IBA_pow (1 / (22 # 10)) rgbroi specwrap
    (IBA_premult specwrap (IBA_pow (22 # 10) rgbroi specwrap raster)).

(** The session as [init] leaves it: the three pointers NULL and the cursor
    at -1 (whatever memory is allocated elsewhere). *)
Definition initialised `{WP : LibWebP} (s : WebpInput) : bool :=
  bool_decide (m_file s = None ∧ m_decoded_image s = None ∧
               m_demux s = None ∧ m_subimage s = -1).

(** [webp_imageio_library_version()], as a function of what
    [WebPGetDecoderVersion()] returns; [%d] prints a decimal number. *)
Definition webp_imageio_library_version (WebPGetDecoderVersion : Z) : string :=
  let v := WebPGetDecoderVersion in
  "Webp " +:+ pretty (v ≫ 16) +:+ "." +:+ pretty (Z.land (v ≫ 8) 255)
  +:+ "." +:+ pretty (Z.land v 255).

(** Resource accounting of a call, from the session [s0] before it to the
    session [s] after it: which of the file handle, the demuxer and the
    raster the call has left behind. A handle, demuxer or raster that the
    call created sits at the first free address of [s0]. *)
Section Accounting.
Context `{WP : LibWebP}.

Definition file_closed (s0 s : WebpInput) : Prop :=
  m_file s = None ∧ files s = files s0.
Definition file_open (s0 s : WebpInput) : Prop :=
  m_file s = Some (fresh (files s0)) ∧
  files s = {[fresh (files s0)]} ∪ files s0.

Definition demux_none (s0 s : WebpInput) : Prop :=
  m_demux s = None ∧ demuxers s = demuxers s0.
Definition demux_live (s0 s : WebpInput) (dm : WebPDemuxer) : Prop :=
  m_demux s = Some (fresh (dom (demuxers s0))) ∧
  demuxers s = <[fresh (dom (demuxers s0)) := dm]> (demuxers s0).
Definition demux_dangling (s0 s : WebpInput) : Prop :=
  m_demux s = Some (fresh (dom (demuxers s0))) ∧ demuxers s = demuxers s0.

Definition image_none (s0 s : WebpInput) : Prop :=
  m_decoded_image s = None ∧ images s = images s0.
Definition image_live (s0 s : WebpInput) (raster : list Z) : Prop :=
  m_decoded_image s = Some (fresh (dom (images s0))) ∧
  images s = <[fresh (dom (images s0)) := raster]> (images s0).

End Accounting.

(** The messages of [open] that come before the container is parsed. *)
Definition before_parse (e : ErrorMessage) : bool :=
  match e with
  | NotARegularFile _ | FailedToGetSize _ | FileSizeLessThanHeader _
  | CouldNotOpenFile _ | HeaderReadFailure _ _ _ | NotAWebPImage _
  | ReadFailure _ _ _ => true
  | FailedToParse _ | CouldntDecode _ _ => false
  end.

(** The spec [open] builds from the canvas of a parsed container (lines
    131-137). *)
Definition canvas_spec `{WP : LibWebP} (dm : WebPDemuxer) : ImageSpec :=
  attribute "oiio:ColorSpace" (AttrString "sRGB")
    (ImageSpec_new (WebPDemuxGetI dm WEBP_FF_CANVAS_WIDTH)
       (WebPDemuxGetI dm WEBP_FF_CANVAS_HEIGHT) 4 UINT8).

(** ** The colour normalisation of the specification *)

Module ColorNormalizer.
#[local] Open Scope R_scope.

(** [x^y] for [0 <= x], [0 < y]. ([Rpower 0 y] is 1, not 0: [Rpower] is
    [exp (y * ln x)] with [ln 0 = 0].) *)
Definition power (x y : R) : R := if Rle_dec x 0 then 0 else Rpower x y.

(** Modelled from the spec: [ImageBufAlgo::pow] and [ImageBufAlgo::premult],
    which [open] calls and which are not among the sources. Section 4.2 gives
    the transform on a channel value [v] in the unit interval (the 8-bit
    sample over 255) and the alpha [a] of its pixel: linearize with exponent
    2.2, premultiply by [a], re-encode with exponent 1/2.2; alpha is left
    untouched. Values are real numbers; the rounding of the floating-point
    code is not part of the model. *)
Definition linearize (v : R) : R := power v 2.2.
Definition premultiply (v a : R) : R := v * a.
Definition re_encode (v : R) : R := power v (1 / 2.2).

(** Modelled from the spec: the three steps of section 4.2 in their order,
    standing for the three [ImageBufAlgo] calls of [open]. *)
Definition normalize_channel (v a : R) : R :=
  re_encode (premultiply (linearize v) a).

Record pixel := { red : R; green : R; blue : R; alpha : R }.

(** Modelled from the spec: the transform on the red, green and blue of a
    pixel ([ImageBufAlgo] is not among the sources); alpha is copied. *)
Definition normalize (p : pixel) : pixel :=
  {| red := normalize_channel (red p) (alpha p);
     green := normalize_channel (green p) (alpha p);
     blue := normalize_channel (blue p) (alpha p);
     alpha := alpha p |}.

(** The 8-bit sample [s] as a value in the unit interval. *)
Definition sample (s : Z) : R := IZR s / 255.

Definition rgba (r g b a : Z) : pixel :=
  {| red := sample r; green := sample g; blue := sample b; alpha := sample a |}.

End ColorNormalizer.

(** ** An in-memory codec to run the reader on

    A container is the bytes [w; h; n], nine bytes of padding, then [n]
    frames [duration; len; fragment] with [len] bytes of fragment. A
    fragment [fw; fh; pixels] decodes when it holds [4 * fw * fh] bytes of
    pixels. *)

Module MemCodec.

Record Frame := { frame_duration : Z; frame_bytes : list Z }.
Record Demuxer := { canvas_width : Z; canvas_height : Z; frames : list Frame }.

Fixpoint parse_frames (n : nat) (data : list Z) : option (list Frame) :=
  match n with
  | O => Some []
  | S n' =>
      match data with
      | d :: len :: rest =>
          if (0 <=? len) && (len <=? Z.of_nat (length rest)) then
            fs ← parse_frames n' (drop (Z.to_nat len) rest);
            Some ({| frame_duration := d;
                     frame_bytes := take (Z.to_nat len) rest |} :: fs)
          else None
      | _ => None
      end
  end.

Definition get_info (header : list Z) : option (Z * Z) :=
  match header with
  | w :: h :: _ =>
      if 12 <=? Z.of_nat (length header) then Some (w, h) else None
  | _ => None
  end.

Definition demux (data : list Z) : option Demuxer :=
  match data with
  | w :: h :: n :: rest =>
      fs ← parse_frames (Z.to_nat n) (drop 9 rest);
      Some {| canvas_width := w; canvas_height := h; frames := fs |}
  | _ => None
  end.

Definition no_frame : WebPIterator :=
  {| frame_num := 0; num_frames := 0; duration := 0; fragment := [] |}.

Definition get_frame (dmux : option Demuxer) (n : Z) (iter : WebPIterator)
  : bool * WebPIterator :=
  match dmux with
  | Some dm =>
      if 1 <=? n then
        match frames dm !! Z.to_nat (n - 1) with
        | Some f => (true, {| frame_num := n;
                              num_frames := Z.of_nat (length (frames dm));
                              duration := frame_duration f;
                              fragment := frame_bytes f |})
        | None => (false, no_frame)
        end
      else (false, no_frame)
  | None => (false, no_frame)
  end.

Definition decode_fragment (frag : list Z) : option (Z * Z * list Z) :=
  match frag with
  | fw :: fh :: pixels =>
      if Z.of_nat (length pixels) =? 4 * fw * fh then Some (fw, fh, pixels)
      else None
  | _ => None
  end.

#[export] Instance codec : LibWebP :=
  {| WebPDemuxer := Demuxer;
     WebPGetInfo := get_info;
     WebPDemux := demux;
     WebPDemuxGetI dm f :=
       match f with
       | WEBP_FF_CANVAS_WIDTH => canvas_width dm
       | WEBP_FF_CANVAS_HEIGHT => canvas_height dm
       end;
     WebPDemuxGetFrame := get_frame;
     WebPDemuxReleaseIterator iter := iter;
     WebPDecodeRGBA := decode_fragment |}.

(** A file system in which every name is a regular file of these bytes. *)
Definition file_system (content : list Z) : Filesystem :=
  {| is_regular _ := true;
     file_size _ := Z.of_nat (length content);
     fopen _ := true;
     fread _ n := take (Z.to_nat n) content |}.

(** [ImageBufAlgo] on UINT8 rasters in exact arithmetic: the sample [s]
    stands for [s/255], and a result is rounded to the nearest sample. *)
Definition pow_sample (b : Q) (s : Z) : Z :=
  let p := Qnum (Qred b) in
  let q := Z.pos (Qden (Qred b)) in
  let unit := 255 ^ p in
  let value := 510 ^ q * s ^ p in
  Z.of_nat (length (filter (λ t, (2 * t - 1) ^ q * unit ≤ value) (seqZ 1 255))).

Definition premult_sample (s a : Z) : Z := (2 * s * a + 255) / 510.

Definition in_roi (roi : ROI) (sp : ImageSpec) (i : nat) : bool :=
  let c := Z.of_nat i `mod` nchannels sp in
  let x := (Z.of_nat i / nchannels sp) `mod` width sp in
  let y := (Z.of_nat i / nchannels sp) / width sp in
  (xbegin roi <=? x) && (x <? xend roi) && (ybegin roi <=? y) && (y <? yend roi)
  && (chbegin roi <=? c) && (c <? chend roi).

Definition exact_iba : ImageBufAlgo :=
  {| IBA_pow b roi sp raster :=
       imap (λ i v, if in_roi roi sp i then pow_sample b v else v) raster;
     IBA_premult sp raster :=
       imap (λ i v,
               if Z.of_nat i `mod` 4 =? 3 then v
               else match raster !! (i / 4 * 4 + 3)%nat with
                    | Some a => premult_sample v a
                    | None => v
                    end) raster |}.

(** The example files. *)
Definition header (w h n : Z) : list Z := [w; h; n; 0; 0; 0; 0; 0; 0; 0; 0; 0].

(** One 2 x 2 frame, opaque red. *)
Definition red_2x2 : list Z :=
  header 2 2 1
  ++ [100; 18; 2; 2] ++ [255; 0; 0; 255; 255; 0; 0; 255]
  ++ [255; 0; 0; 255; 255; 0; 0; 255].

(** Two 1 x 1 frames of 40 ms: opaque red, then red with alpha 0. *)
Definition two_frames : list Z :=
  header 1 1 2 ++ [40; 6; 1; 1; 255; 0; 0; 255] ++ [40; 6; 1; 1; 255; 0; 0; 0].

(** Two 1 x 1 frames; the second fragment is truncated and does not decode. *)
Definition second_frame_corrupt : list Z :=
  header 1 1 2 ++ [40; 6; 1; 1; 255; 0; 0; 255] ++ [40; 3; 1; 1; 255].

Section Scenarios.
Context (content : list Z) (IBA : ImageBufAlgo).
#[local] Instance scenario_fs : Filesystem := file_system content.

Definition new_session : WebpInput := WebpInput_new no_frame.

(** [open] on a new session, and [open] followed by further calls. *)
Definition opened : outcome (bool * ImageSpec * WebpInput) :=
  open "in.webp" (ImageSpec_new 0 0 0 UINT8) new_session.

Definition open_then {A} (k : M A) : outcome (A * WebpInput) :=
  (open "in.webp" (ImageSpec_new 0 0 0 UINT8);; k) new_session.

(** The value and the session a run ends with ([new_session] when it ends in
    undefined behaviour). *)
Definition result {A} (o : outcome (A * WebpInput)) : option A :=
  match o with Ret (a, _) => Some a | Undefined => None end.

Definition session {A} (o : outcome (A * WebpInput)) : WebpInput :=
  match o with Ret (_, s) => s | Undefined => WebpInput_new no_frame end.

End Scenarios.

End MemCodec.

(** ** More files and file systems for the in-memory codec *)

Module MemFiles.
Import MemCodec.

(** No name is a regular file. *)
Definition no_regular_file : Filesystem :=
  {| is_regular _ := false;
     file_size _ := 0;
     fopen _ := false;
     fread _ n := [] |}.

(** Every name is a regular file that reports [size] bytes and delivers
    [content] (a short read when [content] is shorter). *)
Definition file_of_size (size : Z) (content : list Z) : Filesystem :=
  {| is_regular _ := true;
     file_size _ := size;
     fopen _ := true;
     fread _ n := take (Z.to_nat n) content |}.

(** Every name is a regular file that cannot be opened. *)
Definition unreadable_file (content : list Z) : Filesystem :=
  {| is_regular _ := true;
     file_size _ := Z.of_nat (length content);
     fopen _ := false;
     fread _ n := [] |}.

(** Eleven bytes: shorter than a header. *)
Definition eleven_bytes : list Z := [1; 1; 1; 0; 0; 0; 0; 0; 0; 0; 0].

(** A header that announces two frames, followed by one. *)
Definition missing_frame : list Z :=
  header 1 1 2 ++ [40; 6; 1; 1; 255; 0; 0; 255].

(** A container without frames. *)
Definition no_frames : list Z := header 1 1 0.

(** A 2 x 2 canvas with two frames: the first covers it, opaque red; the
    second is 1 x 1. *)
Definition small_second_frame : list Z :=
  header 2 2 2
  ++ [100; 18; 2; 2] ++ [255; 0; 0; 255; 255; 0; 0; 255]
  ++ [255; 0; 0; 255; 255; 0; 0; 255]
  ++ [100; 6; 1; 1; 255; 0; 0; 255].

(** A 2 x 2 canvas whose only frame is 1 x 1. *)
Definition small_first_frame : list Z :=
  header 2 2 1 ++ [100; 6; 1; 1; 255; 0; 0; 255].

(** One frame whose fragment is truncated and does not decode. *)
Definition first_frame_corrupt : list Z := header 1 1 1 ++ [40; 3; 1; 1; 255].

(** The spec a run of [open] hands back. *)
Definition spec_of (o : outcome (bool * ImageSpec * WebpInput)) : ImageSpec :=
  match o with Ret (_, sp, _) => sp | Undefined => ImageSpec_new 0 0 0 UINT8 end.

(** [open] on a new session in a given file system. *)
Definition opened_in (FS : Filesystem) (IBA : ImageBufAlgo)
  : outcome (bool * ImageSpec * WebpInput) :=
  open "in.webp" (ImageSpec_new 0 0 0 UINT8) new_session.

End MemFiles.

(** ** Properties of the cursor *)

Section ReaderProperties.
Context `{FS : Filesystem} `{WP : LibWebP} `{IBA : ImageBufAlgo}.
Implicit Types s : WebpInput.

Ltac run :=
  repeat (unfold mbind, mret, M_bind, M_ret, get, modify, undefined, errorf,
            twice; cbn [fst snd negb]).

Lemma seek_subimage_at_cursor s k :
  0 ≤ k → m_subimage s = k → seek_subimage k 0 s = Ret (true, s).
Proof.
  intros Hk Hs. unfold seek_subimage.
  destruct (Z.ltb_spec k 0) as [?|_]; [lia|]. cbn [orb negb Z.eqb].
  run. rewrite Hs, Z.eqb_refl. reflexivity.
Qed.

(** C1: when the cursor is already at frame [k], [seek_subimage(k, 0)]
    returns true and leaves the whole session as it was (cursor, rasters,
    container, number of decoder calls); so does calling it twice in a
    row. *)
Theorem seek_subimage_idempotent s k :
  0 ≤ k → m_subimage s = k →
  seek_subimage k 0 s = Ret (true, s) ∧
  twice (seek_subimage k 0) s = Ret (true, s).
Proof.
  intros Hk Hs. pose proof (seek_subimage_at_cursor s k Hk Hs) as H.
  split; [exact H|]. unfold twice, mbind, M_bind. rewrite H. exact H.
Qed.

(** C9: a negative subimage index or a non-zero MIP level makes
    [seek_subimage] return false with the session untouched, also when the
    index is the current one. *)
Theorem seek_subimage_rejects s subimage miplevel :
  subimage < 0 ∨ miplevel ≠ 0 →
  seek_subimage subimage miplevel s = Ret (false, s).
Proof.
  intros H. unfold seek_subimage.
  destruct (Z.ltb_spec subimage 0) as [?|?]; [reflexivity|].
  destruct (Z.eqb_spec miplevel 0) as [?|?]; [lia|reflexivity].
Qed.


Ltac cases :=
  repeat (run; first [ case_match | case_decide ]); run; simplify_eq/=.

Lemma with_iter_same s : s = with_iter (m_iter s) s.
Proof. destruct s; reflexivity. Qed.

(** What a [close] that returns leaves behind. *)
Lemma close_inv s b s' :
  close s = Ret (b, s') →
  b = true ∧ m_subimage s' = m_subimage s ∧ m_decoded_image s' = None ∧
  m_file s' = None ∧ container s' = None ∧
  decode_calls s' = decode_calls s ∧ errors s' = errors s ∧
  m_scanline_size s' = m_scanline_size s ∧ m_spec s' = m_spec s ∧
  m_demux s' = m_demux s.
Proof.
  unfold close, fclose, free, demux_delete, container.
  cases; intros; simplify_eq/=; repeat split; auto;
    repeat match goal with H : m_demux _ = _ |- _ => rewrite H; clear H end;
    cbn; rewrite ?lookup_delete_eq; auto.
Qed.

(** A second [close] of a session that held a container deletes the
    demuxer again: [m_demux] is not reset. *)
Lemma close_again_undefined s d b s' :
  m_demux s = Some d → close s = Ret (b, s') → close s' = Undefined.
Proof.
  intros Hd Hc.
  destruct (close_inv _ _ _ Hc) as (_ & _ & Hi & Hf & Hn & _ & _ & _ & _ & Hd').
  unfold container in Hn. rewrite Hd', Hd in Hn. cbn in Hn.
  unfold close, demux_delete. run. rewrite Hf, Hi. cbn. rewrite Hd', Hd. cbn.
  rewrite Hn. reflexivity.
Qed.

Lemma close_returns s :
  pointers_live s = true → ∃ s', close s = Ret (true, s').
Proof.
  unfold pointers_live, close, fclose, free, demux_delete.
  intros [[Hf Hi]%andb_prop Hd]%andb_prop. run.
  destruct (m_file s) as [f|] eqn:Ef, (m_decoded_image s) as [p|] eqn:Ep,
    (m_demux s) as [d|] eqn:Ed;
    repeat match goal with
      | H : bool_decide _ = true |- _ => apply bool_decide_eq_true in H
      | H : is_Some _ |- _ => destruct H as [? H]
      end;
    repeat (cbn;
            first [ case_decide; [|tauto]
                  | match goal with H : _ = Some _ |- _ => rewrite H end
                  | match goal with H : _ = None |- _ => rewrite H end ]);
    cbn; eauto.
Qed.

(** C10: [close] leaves the cursor where it was. On a session whose
    pointers are live [close] returns true; afterwards [current_subimage]
    still answers the index that was current, the session holds no raster
    and no live container, and a seek to that index returns true through the
    already-current shortcut. *)
Theorem close_keeps_cursor s :
  pointers_live s = true → 0 ≤ current_subimage s →
  ∃ s', close s = Ret (true, s') ∧
        current_subimage s' = current_subimage s ∧
        m_decoded_image s' = None ∧ raw_image s' = None ∧
        container s' = None ∧
        seek_subimage (current_subimage s) 0 s' = Ret (true, s').
Proof.
  intros Hl Hk. destruct (close_returns s Hl) as [s' Hc]. exists s'.
  destruct (close_inv _ _ _ Hc) as (_ & Hcur & Hi & _ & Hd & _).
  repeat split; auto.
  - unfold raw_image. rewrite Hi. reflexivity.
  - apply seek_subimage_at_cursor; [exact Hk|]. exact Hcur.
Qed.

(** A seek that returns true away from the cursor has looked the frame up
    and decoded it into a fresh raster. *)
Lemma seek_subimage_decodes s k miplevel s1 :
  seek_subimage k miplevel s = Ret (true, s1) → m_subimage s ≠ k →
  ∃ dm it w h raster,
    deref_demux s = Some dm ∧
    WebPDemuxGetFrame dm (k + 1) (m_iter s) = (true, it) ∧
    WebPDecodeRGBA (fragment it) = Some (w, h, raster) ∧
    s1 = with_decoded_image (Some (fresh (dom (images s))))
           (with_images (<[fresh (dom (images s)) := raster]> (images s))
              (with_decode_calls (S (decode_calls s))
                 (with_subimage k (with_iter it s)))).
Proof.
  unfold seek_subimage, demux_get_frame, decode_rgba.
  cases; intros; simplify_eq/=; try lia.
  destruct (WebPDemuxGetFrame _ _ _) as [found it] eqn:E; simplify_eq/=.
  eauto 10.
Qed.

Lemma seek_subimage_true s k miplevel s1 :
  seek_subimage k miplevel s = Ret (true, s1) →
  m_subimage s1 = k ∧ 0 ≤ k ∧ miplevel = 0 ∧
  m_scanline_size s1 = m_scanline_size s ∧ m_spec s1 = m_spec s.
Proof.
  intros H. destruct (decide (m_subimage s = k)) as [Hk|Hk].
  - revert H. unfold seek_subimage. cases; intros; simplify_eq/=; try lia.
    apply orb_false_elim in H as [?%Z.ltb_ge ?%negb_false_iff%Z.eqb_eq]. auto.
  - assert (0 ≤ k ∧ miplevel = 0) as [? ?].
    { revert H. unfold seek_subimage.
      destruct (Z.ltb_spec k 0), (Z.eqb_spec miplevel 0); cbn; try discriminate; auto. }
    destruct (seek_subimage_decodes _ _ _ _ H Hk) as (dm & it & w & h & r & _ & _ & _ & ->).
    cbn. auto.
Qed.

(** Two seeks in a row: when the first returns true the second changes
    nothing, and the two together call the decoder at most once. *)
Lemma seek_subimage_twice s k miplevel s1 :
  seek_subimage k miplevel s = Ret (true, s1) →
  twice (seek_subimage k miplevel) s = Ret (true, s1) ∧
  (decode_calls s1 ≤ S (decode_calls s))%nat.
Proof.
  intros H. destruct (seek_subimage_true _ _ _ _ H) as (Hc & Hk & -> & _).
  split.
  - unfold twice, mbind, M_bind. rewrite H.
    apply seek_subimage_at_cursor; assumption.
  - destruct (decide (m_subimage s = k)) as [E|E].
    + rewrite (seek_subimage_at_cursor s k Hk E) in H. simplify_eq. lia.
    + destruct (seek_subimage_decodes _ _ _ _ H E)
        as (? & ? & ? & ? & ? & _ & _ & _ & ->). cbn. lia.
Qed.

(** A seek that decodes allocates: the rasters held before stay allocated. *)
Lemma seek_subimage_allocates s k miplevel s1 :
  seek_subimage k miplevel s = Ret (true, s1) → m_subimage s ≠ k →
  size (images s1) = S (size (images s)) ∧ images s ⊆ images s1.
Proof.
  intros H E.
  destruct (seek_subimage_decodes _ _ _ _ H E)
    as (? & ? & ? & ? & r & _ & _ & _ & ->). cbn.
  assert (images s !! fresh (dom (images s)) = None) as Hfresh
    by apply not_elem_of_dom, is_fresh.
  split; [by apply map_size_insert_None | by apply insert_subseteq].
Qed.

(** [init] leaves a newly constructed object as it is. *)
Lemma init_new junk : init (WebpInput_new junk) = Ret ((), WebpInput_new junk).
Proof. reflexivity. Qed.

(** X20: once the seek inside [read_native_scanline] has returned true,
    and provided the current raster holds at least [height * width * 4]
    bytes, a row [0 <= y < height] is copied: the call returns true and the
    caller's buffer holds the [width * 4] bytes of the raster from offset
    [y * width * 4]; any other row makes the call return false with the
    buffer as it was. ([m_scanline_size] is the header's width times 4,
    [open_scanline_size].) *)
Theorem read_native_scanline_rows s subimage miplevel y data s1 buf w h :
  seek_subimage subimage miplevel s = Ret (true, s1) →
  raw_image s1 = Some buf →
  m_scanline_size s1 = w * 4 → height (m_spec s1) = h →
  0 ≤ w → h * (w * 4) ≤ Z.of_nat (length buf) →
  Z.of_nat (length data) = w * 4 →
  ∃ out, read_native_scanline subimage miplevel y data s = Ret (out, s1) ∧
         out = (if (0 <=? y) && (y <? h) then (true, scanline buf (w * 4) y)
                else (false, data)) ∧
         Z.of_nat (length out.2) = w * 4.
Proof.
  intros Hseek Hraw Hstride Hh Hw Hbuf Hdata.
  unfold read_native_scanline. run. rewrite Hseek. cbn. rewrite Hh, Z.geb_leb.
  destruct (Z.ltb_spec y 0) as [Hy|Hy].
  { destruct (Z.leb_spec 0 y); [lia|]. cbn. eauto. }
  destruct (Z.leb_spec 0 y); [|lia].
  destruct (Z.leb_spec h y) as [Hy'|Hy'].
  { destruct (Z.ltb_spec y h); [lia|]. cbn. eauto. }
  destruct (Z.ltb_spec y h); [|lia]. cbn.
  unfold memcpy_from_image, raw_image in *. run.
  destruct (m_decoded_image s1) as [p|]; [|discriminate]. cbn in Hraw.
  rewrite Hraw, Hstride.
  assert (y * (w * 4) + w * 4 ≤ Z.of_nat (length buf)) by nia.
  repeat match goal with
         | |- context [?a <=? ?b] => destruct (Z.leb_spec a b); [|nia]
         end.
  cbn. rewrite (drop_ge data) by lia. rewrite app_nil_r.
  eexists; split; [reflexivity|]. split; [reflexivity|].
  cbn. unfold scanline. rewrite length_take, length_drop. nia.
Qed.

Lemma on_bufwrap_live sp ops s u s' :
  on_bufwrap sp ops s = Ret (u, s') →
  ∀ p buf, m_decoded_image s = Some p → images s !! p = Some buf →
  s' = with_images (<[p := foldl (λ b op, op b) buf ops]> (images s)) s ∧
  width sp * height sp * nchannels sp ≤ Z.of_nat (length buf).
Proof.
  intros H p buf Hp Hb. revert H. unfold on_bufwrap. run. rewrite Hp, Hb.
  destruct (Z.leb_spec (width sp * height sp * nchannels sp)
              (Z.of_nat (length buf))); intros; simplify_eq/=. auto.
Qed.

(** What a successful [open] of a new session has done: probed the header,
    parsed the container, looked up and decoded frame 1, set the animation
    attributes from the iterator, and normalised the raster in place. *)
Lemma open_true name spec s0 spec' s :
  m_subimage s0 = -1 → open name spec s0 = Ret (true, spec', s) →
  ∃ hw hh dm it w h raster,
    WebPGetInfo (fread name (Z.min (file_size name) 64)) = Some (hw, hh) ∧
    WebPDemux (fread name (file_size name)) = Some dm ∧
    WebPDemuxGetFrame (Some dm) 1 (m_iter s0) = (true, it) ∧
    WebPDecodeRGBA (fragment it) = Some (w, h, raster) ∧
    m_iter s = it ∧ m_subimage s = 0 ∧ m_scanline_size s = hw * 4 ∧
    container s = Some dm ∧
    width (m_spec s) = WebPDemuxGetI dm WEBP_FF_CANVAS_WIDTH ∧
    height (m_spec s) = WebPDemuxGetI dm WEBP_FF_CANVAS_HEIGHT ∧
    attributes (m_spec s) =
      (if 1 <? num_frames it
       then <["FramesPerSecond" := AttrRational 1000 (duration it)]>
              (<["oiio:Movie" := AttrInt 1]>
                 {["oiio:ColorSpace" := AttrString "sRGB"]})
       else {["oiio:ColorSpace" := AttrString "sRGB"]}) ∧
    raw_image s =
      Some (normalized_at_open (WebPDemuxGetI dm WEBP_FF_CANVAS_WIDTH)
              (WebPDemuxGetI dm WEBP_FF_CANVAS_HEIGHT) raster).
Proof.
  intros Hcur. unfold open, do_fopen, do_demux.
  cases; intros; simplify_eq/=.
  all: match goal with H : negb ?b = false |- _ =>
         is_var b; apply negb_false_iff in H; subst b
       end.
  all: match goal with H : seek_subimage 0 0 _ = Ret _ |- _ =>
         apply seek_subimage_decodes in H as (dm & it & w & h & r & Hd & Hf & Hr & ->);
           [|cbn; lia]
       end.
  all: unfold deref_demux in Hd; cbn in Hd; rewrite lookup_insert_eq in Hd;
    simplify_eq/=.
  all: repeat match goal with
         | H : on_bufwrap _ _ _ = Ret _ |- _ =>
             eapply on_bufwrap_live in H;
               [|reflexivity|cbn; apply lookup_insert_eq];
             destruct H as [-> _]; simplify_eq/=
         end.
  all: do 7 eexists; repeat split; eauto.
  all: unfold container, raw_image, normalized_at_open; cbn;
    rewrite ?lookup_insert_eq;
    repeat match goal with H : (1 <? _) = _ |- _ => rewrite H end;
    reflexivity.
Qed.

Lemma open_scanline_size name spec s0 spec' s :
  m_subimage s0 = -1 → open name spec s0 = Ret (true, spec', s) →
  ∃ hw hh, WebPGetInfo (fread name (Z.min (file_size name) 64)) = Some (hw, hh) ∧
           m_scanline_size s = hw * 4.
Proof.
  intros H0 H. destruct (open_true _ _ _ _ _ H0 H)
    as (hw & hh & ? & ? & ? & ? & ? & ? & _ & _ & _ & _ & _ & ? & _).
  eauto.
Qed.

(** C8: after a successful [open] of a new session, [m_iter] is the
    iterator of frame 1 of the container, and [m_spec] carries
    [oiio:Movie = 1] and [FramesPerSecond = 1000 / duration of that frame]
    when the iterator reports more than one frame, and neither attribute
    otherwise. *)
Theorem open_animation_attributes name spec s0 spec' s :
  m_subimage s0 = -1 → open name spec s0 = Ret (true, spec', s) →
  (∃ dm, container s = Some dm ∧
         WebPDemuxGetFrame (Some dm) 1 (m_iter s0) = (true, m_iter s)) ∧
  attributes (m_spec s) !! "oiio:Movie" =
    (if 1 <? num_frames (m_iter s) then Some (AttrInt 1) else None) ∧
  attributes (m_spec s) !! "FramesPerSecond" =
    (if 1 <? num_frames (m_iter s)
     then Some (AttrRational 1000 (duration (m_iter s))) else None).
Proof.
  intros H0 H. destruct (open_true _ _ _ _ _ H0 H)
    as (hw & hh & dm & it & w & h & r & _ & _ & Hf & _ & <- & _ & _ & Hc & _ & _ & Ha & _).
  split; [eauto|]. rewrite Ha.
  destruct (1 <? num_frames (m_iter s)); split; by simplify_map_eq.
Qed.

End ReaderProperties.

(** ** Properties of the colour normalisation *)

Module ColorNormalizerProperties.
Import ColorNormalizer.
#[local] Open Scope R_scope.

Lemma power_0 y : power 0 y = 0.
Proof. unfold power. destruct (Rle_dec 0 0); [reflexivity|lra]. Qed.

Lemma power_pos x y : 0 < x → power x y = Rpower x y ∧ 0 < power x y.
Proof.
  intros Hx. unfold power. destruct (Rle_dec x 0); [lra|].
  split; [reflexivity|]. unfold Rpower. apply exp_pos.
Qed.

Lemma normalize_channel_opaque v : 0 <= v → normalize_channel v 1 = v.
Proof.
  intros [Hv| <-]; unfold normalize_channel, re_encode, premultiply, linearize.
  - destruct (power_pos v 2.2 Hv) as [E Hp]. rewrite Rmult_1_r.
    destruct (power_pos _ (1 / 2.2) Hp) as [-> _]. rewrite E, Rpower_mult.
    replace (2.2 * (1 / 2.2)) with 1 by lra. apply Rpower_1, Hv.
  - rewrite power_0, Rmult_1_r. apply power_0.
Qed.

Lemma normalize_channel_transparent v : normalize_channel v 0 = 0.
Proof.
  unfold normalize_channel, re_encode, premultiply.
  rewrite Rmult_0_r. apply power_0.
Qed.

Lemma sample_range s : (0 ≤ s ≤ 255)%Z → 0 <= sample s <= 1.
Proof.
  intros [H0 H1]. apply IZR_le in H0, H1. unfold sample. lra.
Qed.

(** C7: the transform leaves the alpha of a pixel as it is; an opaque pixel
    (alpha 255) keeps its red, green and blue (over the real numbers the
    result is the input exactly, so that no rounding of an 8-bit sample can
    move it); a pixel with alpha 0 gets red, green and blue 0 whatever they
    were. *)
Theorem normalize_alpha_cases r g b a :
  (0 ≤ r ≤ 255)%Z → (0 ≤ g ≤ 255)%Z → (0 ≤ b ≤ 255)%Z →
  alpha (normalize (rgba r g b a)) = alpha (rgba r g b a) ∧
  normalize (rgba r g b 255) = rgba r g b 255 ∧
  normalize (rgba r g b 0) = rgba 0 0 0 0.
Proof.
  intros Hr Hg Hb. split; [reflexivity|].
  apply sample_range in Hr, Hg, Hb.
  assert (sample 255 = 1) as E1 by (unfold sample; lra).
  assert (sample 0 = 0) as E0 by (unfold sample; lra).
  unfold normalize, rgba. cbn. rewrite E1, E0. split.
  - rewrite !normalize_channel_opaque by lra. reflexivity.
  - rewrite !normalize_channel_transparent. reflexivity.
Qed.

End ColorNormalizerProperties.

(** ** Resources and error paths of [open], [seek_subimage] and [close] *)

Section ResourceProperties.
Context `{FS : Filesystem} `{WP : LibWebP} `{IBA : ImageBufAlgo}.
Implicit Types s : WebpInput.

Ltac exec :=
  repeat (unfold mbind, mret, M_bind, M_ret, get, modify, undefined, errorf,
            twice; cbn [fst snd negb]).
Ltac split_cases :=
  repeat (exec; first [ case_match | case_decide ]); exec; simplify_eq/=.

Lemma pointers_live_spec s :
  pointers_live s = true ↔
  (∀ f, m_file s = Some f → f ∈ files s) ∧
  (∀ p, m_decoded_image s = Some p → is_Some (images s !! p)) ∧
  (∀ d, m_demux s = Some d → is_Some (demuxers s !! d)).
Proof.
  unfold pointers_live. rewrite !andb_true_iff.
  destruct (m_file s), (m_decoded_image s), (m_demux s);
    rewrite ?bool_decide_eq_true;
    (split;
     [ intros [[? ?] ?]; repeat split; intros; simplify_eq; assumption
     | intros (? & ? & ?); repeat split; eauto ]).
Qed.

Lemma initialised_spec s :
  initialised s = true ↔
  m_file s = None ∧ m_decoded_image s = None ∧ m_demux s = None ∧
  m_subimage s = -1.
Proof. unfold initialised. apply bool_decide_eq_true. Qed.

Lemma initialised_live s : initialised s = true → pointers_live s = true.
Proof.
  intros (Hf & Hi & Hd & _)%initialised_spec. apply pointers_live_spec.
  rewrite Hf, Hi, Hd. repeat split; intros; discriminate.
Qed.

(** What [close] releases. *)
Lemma close_frees s b s' :
  close s = Ret (b, s') →
  files s' = match m_file s with Some f => files s ∖ {[f]} | None => files s end ∧
  images s' = match m_decoded_image s with
              | Some p => delete p (images s) | None => images s end ∧
  demuxers s' = match m_demux s with
                | Some d => delete d (demuxers s) | None => demuxers s end ∧
  m_iter s' = WebPDemuxReleaseIterator (m_iter s) ∧
  m_filename s' = m_filename s ∧ m_image_size s' = m_image_size s.
Proof.
  unfold close, fclose, free, demux_delete.
  split_cases; intros; simplify_eq/=; repeat split; auto.
Qed.

(** A seek that returns false: rejected, frame not found, or decode failed
    and session closed. *)
Lemma seek_subimage_false s k miplevel s' :
  seek_subimage k miplevel s = Ret (false, s') →
  (s' = s ∧ (k < 0 ∨ miplevel ≠ 0))
  ∨ (∃ dm, deref_demux s = Some dm ∧
           (WebPDemuxGetFrame dm (k + 1) (m_iter s)).1 = false ∧
           s' = with_iter (WebPDemuxGetFrame dm (k + 1) (m_iter s)).2 s)
  ∨ (∃ dm it, deref_demux s = Some dm ∧
              WebPDemuxGetFrame dm (k + 1) (m_iter s) = (true, it) ∧
              WebPDecodeRGBA (fragment it) = None ∧
              close (with_errors (errors s ++ [CouldntDecode (m_filename s) (k + 1)])
                       (with_decoded_image None
                          (with_decode_calls (S (decode_calls s))
                             (with_subimage k (with_iter it s)))))
              = Ret (true, s')).
Proof.
  unfold seek_subimage, demux_get_frame, decode_rgba.
  split_cases; intros; simplify_eq/=.
  all: try (right; left; eauto; fail).
  all: try (left; split; [reflexivity|];
            match goal with H : _ || _ = true |- _ =>
              apply orb_prop in H as [?%Z.ltb_lt|?%negb_true_iff%Z.eqb_neq] end;
            auto; fail).
  right; right.
  destruct (WebPDemuxGetFrame _ _ _) as [found it] eqn:E; simplify_eq/=.
  match goal with H : close _ = Ret (?b, _) |- _ =>
    destruct (close_inv _ _ _ H) as (-> & _) end.
  eauto 10.
Qed.

(** A seek that returns false, with the guard it passed. *)
Lemma seek_subimage_false_cases s k miplevel s' :
  seek_subimage k miplevel s = Ret (false, s') →
  (s' = s ∧ (k < 0 ∨ miplevel ≠ 0))
  ∨ (0 ≤ k ∧ miplevel = 0 ∧
     ∃ dm, deref_demux s = Some dm ∧
           (WebPDemuxGetFrame dm (k + 1) (m_iter s)).1 = false ∧
           s' = with_iter (WebPDemuxGetFrame dm (k + 1) (m_iter s)).2 s)
  ∨ (0 ≤ k ∧ miplevel = 0 ∧
     ∃ dm it, deref_demux s = Some dm ∧
              WebPDemuxGetFrame dm (k + 1) (m_iter s) = (true, it) ∧
              WebPDecodeRGBA (fragment it) = None ∧
              close (with_errors (errors s ++ [CouldntDecode (m_filename s) (k + 1)])
                       (with_decoded_image None
                          (with_decode_calls (S (decode_calls s))
                             (with_subimage k (with_iter it s)))))
              = Ret (true, s')).
Proof.
  unfold seek_subimage, demux_get_frame, decode_rgba.
  split_cases; intros; simplify_eq/=.
  all: try match goal with H : _ || _ = false |- _ =>
         apply orb_false_elim in H as [?%Z.ltb_ge ?%negb_false_iff%Z.eqb_eq] end.
  all: try (right; left; eauto 10; fail).
  all: try (left; split; [reflexivity|];
            match goal with H : _ || _ = true |- _ =>
              apply orb_prop in H as [?%Z.ltb_lt|?%negb_true_iff%Z.eqb_neq] end;
            auto; fail).
  right; right.
  destruct (WebPDemuxGetFrame _ _ _) as [found it] eqn:E; simplify_eq/=.
  match goal with H : close _ = Ret (?b, _) |- _ =>
    destruct (close_inv _ _ _ H) as (-> & _) end.
  eauto 10.
Qed.

(** C2, as the code has it. A seek that returns false was rejected, or did
    not find the frame, or found it and could not decode it. In the first
    two cases nothing but the frame iterator has changed: the cursor and
    the decoded raster are those of before. In the third the session has
    been closed: the file handle is closed and [m_file] NULL, no raster is
    held, and the demuxer [m_demux] pointed to is deleted. *)
Theorem seek_subimage_failure s subimage miplevel s' :
  seek_subimage subimage miplevel s = Ret (false, s') →
  ((subimage < 0 ∨ miplevel ≠ 0)
   ∨ (∃ dm, deref_demux s = Some dm ∧
            (WebPDemuxGetFrame dm (subimage + 1) (m_iter s)).1 = false)
   ∨ (∃ dm, deref_demux s = Some dm ∧
            (WebPDemuxGetFrame dm (subimage + 1) (m_iter s)).1 = true ∧
            WebPDecodeRGBA
              (fragment (WebPDemuxGetFrame dm (subimage + 1) (m_iter s)).2)
            = None)) ∧
  ((subimage < 0 ∨ miplevel ≠ 0
    ∨ ∃ dm, deref_demux s = Some dm ∧
            (WebPDemuxGetFrame dm (subimage + 1) (m_iter s)).1 = false) →
   s' = with_iter (m_iter s') s ∧
   current_subimage s' = current_subimage s ∧ raw_image s' = raw_image s) ∧
  (0 ≤ subimage → miplevel = 0 →
   (∃ dm, deref_demux s = Some dm ∧
          (WebPDemuxGetFrame dm (subimage + 1) (m_iter s)).1 = true) →
   m_file s' = None ∧
   files s' = match m_file s with
              | Some f => files s ∖ {[f]} | None => files s end ∧
   m_decoded_image s' = None ∧ raw_image s' = None ∧
   container s' = None ∧
   demuxers s' = match m_demux s with
                 | Some d => delete d (demuxers s) | None => demuxers s end ∧
   decode_calls s' = S (decode_calls s) ∧
   errors s' = errors s ++ [CouldntDecode (m_filename s) (subimage + 1)]).
Proof.
  intros H.
  destruct (seek_subimage_false_cases _ _ _ _ H)
    as [[-> Hrej]|[(Hk & Hm & dm & Hdm & Hfr & ->)
                  |(Hk & Hm & dm & it & Hdm & Hfr & Hdec & Hcl)]].
  - split; [auto|]. split.
    + intros _. auto using with_iter_same.
    + intros ? ?. lia.
  - split; [eauto 10|]. split.
    + intros _. cbn. repeat split; auto.
    + intros _ _ (dm' & Hdm' & Hfr'). rewrite Hdm in Hdm'. simplify_eq.
      rewrite Hfr in Hfr'. discriminate.
  - split.
    { right; right. exists dm. rewrite Hfr. auto. }
    split.
    + intros [?|[?|(dm' & Hdm' & Hfr')]]; try lia.
      rewrite Hdm in Hdm'. simplify_eq. rewrite Hfr in Hfr'. discriminate.
    + intros _ _ _.
      destruct (close_inv _ _ _ Hcl) as (_ & _ & Hi & Hf & Hc & Hn & He & _).
      destruct (close_frees _ _ _ Hcl) as (Hfs & _ & Hds & _).
      cbn in Hn, He, Hfs, Hds.
      repeat split; auto. unfold raw_image. rewrite Hi. reflexivity.
Qed.

Lemma fresh_file_removed (F : gset nat) : ({[fresh F]} ∪ F) ∖ {[fresh F]} = F.
Proof.
  pose proof (is_fresh F) as Hfr. apply set_eq. intros x.
  rewrite elem_of_difference, elem_of_union, !elem_of_singleton. split.
  - intros [[->|?] ?]; [contradiction|assumption].
  - intros Hx. split; [right; exact Hx|]. intros ->. contradiction.
Qed.

Lemma fresh_lookup {A} (m : gmap nat A) : m !! fresh (dom m) = None.
Proof. apply not_elem_of_dom, is_fresh. Qed.

Ltac account :=
  unfold file_closed, file_open, demux_none, demux_live, demux_dangling,
    image_none, image_live, canvas_spec, normalized_at_open;
  cbn;
  repeat match goal with
    | H : ?p ?x = _ |- context [?p ?x] => is_var x; rewrite H
    end;
  rewrite ?fresh_file_removed, ?insert_insert_eq,
    ?(delete_insert_id _ _ _ (fresh_lookup _));
  repeat split; eauto; try congruence.

Ltac use_close :=
  repeat match goal with
    | H : close _ = Ret _ |- _ =>
        let H1 := fresh "Hinv" in
        let H2 := fresh "Hfree" in
        pose proof (close_inv _ _ _ H) as H1;
        pose proof (close_frees _ _ _ H) as H2; clear H;
        cbn in H1, H2;
        destruct H1 as (? & ? & ? & ? & ? & ? & ? & ? & ? & ?);
        destruct H2 as (? & ? & ? & ? & ? & ?)
    end.

(** Every way [open] can return on an initialised session: a failure before
    the container is parsed, a parse failure, and, once the container [dm]
    is parsed and the caller's spec assigned, frame 1 not found, frame 1
    not decodable, or success. *)
Lemma open_initialised s0 name spec b sp s :
  initialised s0 = true → open name spec s0 = Ret (b, sp, s) →
  (b = false ∧ sp = spec ∧
   (∃ e, errors s = errors s0 ++ [e] ∧ before_parse e = true) ∧
   file_closed s0 s ∧ demux_none s0 s ∧ image_none s0 s ∧
   decode_calls s = decode_calls s0 ∧ m_subimage s = -1)
  ∨ (b = false ∧ sp = spec ∧
     errors s = errors s0 ++ [FailedToParse name] ∧
     WebPDemux (fread name (file_size name)) = None ∧
     file_open s0 s ∧ demux_none s0 s ∧ image_none s0 s ∧
     decode_calls s = decode_calls s0 ∧ m_subimage s = -1)
  ∨ (∃ dm, WebPDemux (fread name (file_size name)) = Some dm ∧
           sp = canvas_spec dm ∧
      ((b = false ∧ errors s = errors s0 ∧
        (WebPDemuxGetFrame (Some dm) 1 (m_iter s0)).1 = false ∧
        file_open s0 s ∧ demux_live s0 s dm ∧ image_none s0 s ∧
        decode_calls s = decode_calls s0 ∧ m_subimage s = -1)
       ∨ (∃ it, WebPDemuxGetFrame (Some dm) 1 (m_iter s0) = (true, it) ∧
                WebPDecodeRGBA (fragment it) = None ∧
                b = false ∧ errors s = errors s0 ++ [CouldntDecode name 1] ∧
                file_closed s0 s ∧ demux_dangling s0 s ∧ image_none s0 s ∧
                decode_calls s = S (decode_calls s0) ∧ m_subimage s = 0)
       ∨ (∃ it w h raster,
            WebPDemuxGetFrame (Some dm) 1 (m_iter s0) = (true, it) ∧
            WebPDecodeRGBA (fragment it) = Some (w, h, raster) ∧
            b = true ∧ errors s = errors s0 ∧
            file_open s0 s ∧ demux_live s0 s dm ∧
            image_live s0 s
              (normalized_at_open (WebPDemuxGetI dm WEBP_FF_CANVAS_WIDTH)
                 (WebPDemuxGetI dm WEBP_FF_CANVAS_HEIGHT) raster) ∧
            decode_calls s = S (decode_calls s0) ∧ m_subimage s = 0 ∧
            m_iter s = it ∧ m_image_size s = file_size name ∧
            m_filename s = name))).
Proof.
  intros Hinit%initialised_spec. destruct s0. cbn in Hinit.
  destruct Hinit as (-> & -> & -> & ->).
  unfold open, do_fopen, do_demux.
  split_cases; intros; simplify_eq/=.
  all: repeat match goal with
         | H : negb ?b = false |- _ =>
             is_var b; apply negb_false_iff in H; subst b
         | H : negb ?b = true |- _ =>
             is_var b; apply negb_true_iff in H; subst b
         end.
  all: try match goal with
         | H : seek_subimage 0 0 _ = Ret (true, _) |- _ =>
             apply seek_subimage_decodes in H
               as (dm' & it & w & h & r & Hdm & Hfr & Hr & ->); [|cbn; lia];
             unfold deref_demux in Hdm; cbn in Hdm;
             rewrite lookup_insert_eq in Hdm; simplify_eq/=
         | H : seek_subimage 0 0 _ = Ret (false, _) |- _ =>
             apply seek_subimage_false in H
               as [[_ [?|?]]|[(dm' & Hdm & Hfr & ->)|(dm' & it & Hdm & Hfr & Hr & Hcl)]];
             [lia|lia|..];
             unfold deref_demux in Hdm; cbn in Hdm;
             rewrite lookup_insert_eq in Hdm; simplify_eq/=
         end.
  all: repeat match goal with
         | H : on_bufwrap _ _ _ = Ret _ |- _ =>
             eapply on_bufwrap_live in H;
               [|reflexivity|cbn; apply lookup_insert_eq];
             destruct H as [-> _]; simplify_eq/=
         end.
  all: use_close.
  all: change (0 + 1) with 1 in *.
  all: first
         [ solve [left; account]
         | solve [right; left; account]
         | solve [right; right; eexists; split; [reflexivity|];
                  split; [reflexivity|]; left; account]
         | solve [right; right; eexists; split; [reflexivity|];
                  split; [reflexivity|]; right; left; eexists; account]
         | solve [right; right; eexists; split; [reflexivity|];
                  split; [reflexivity|]; right; right; do 4 eexists; account]
         ].
Qed.

(** X1: [open] rejects a name that is not a regular file, whose size cannot
    be read, or whose size is below 12 bytes, before opening anything: it
    returns false, leaves the caller's spec as it was, reports one message,
    and file handle, container, raster and cursor are those of before. *)
Theorem open_rejects_early s0 name spec :
  negb (is_regular name) || (file_size name =? 2 ^ 64 - 1)
  || (file_size name <? 12) = true →
  ∃ s, open name spec s0 = Ret (false, spec, s) ∧
       m_filename s = name ∧
       length (errors s) = S (length (errors s0)) ∧
       m_file s = m_file s0 ∧ files s = files s0 ∧
       m_demux s = m_demux s0 ∧ demuxers s = demuxers s0 ∧
       m_decoded_image s = m_decoded_image s0 ∧ images s = images s0 ∧
       current_subimage s = current_subimage s0 ∧
       decode_calls s = decode_calls s0.
Proof.
  intros H. unfold open. exec.
  destruct (is_regular name); cbn in *.
  2: { eexists; split; [reflexivity|]; cbn.
       rewrite length_app; cbn; repeat split; auto; lia. }
  destruct (file_size name =? 2 ^ 64 - 1); cbn in *.
  { eexists; split; [reflexivity|]; cbn.
    rewrite length_app; cbn; repeat split; auto; lia. }
  rewrite H. eexists; split; [reflexivity|]; cbn.
  rewrite length_app; cbn; repeat split; auto; lia.
Qed.

Lemma accounted_live s0 s dm raster :
  file_open s0 s → demux_live s0 s dm → image_live s0 s raster →
  pointers_live s = true.
Proof.
  intros [Hf Hfs] [Hd Hds] [Hi His]. apply pointers_live_spec.
  rewrite Hf, Hfs, Hd, Hds, Hi, His. repeat split; intros; simplify_eq.
  - apply elem_of_union_l, elem_of_singleton. reflexivity.
  - rewrite lookup_insert_eq. eauto.
  - rewrite lookup_insert_eq. eauto.
Qed.

(** What a successful [open] of an initialised session holds. *)
Lemma open_success_accounting s0 name spec sp s :
  initialised s0 = true → open name spec s0 = Ret (true, sp, s) →
  current_subimage s = 0 ∧ decode_calls s = S (decode_calls s0) ∧
  errors s = errors s0 ∧
  m_filename s = name ∧ m_image_size s = file_size name ∧
  file_open s0 s ∧
  (∃ dm, WebPDemux (fread name (file_size name)) = Some dm ∧
         demux_live s0 s dm) ∧
  (∃ raster, image_live s0 s raster) ∧
  pointers_live s = true.
Proof.
  intros Hi Ho.
  destruct (open_initialised _ _ _ _ _ _ Hi Ho)
    as [(? & _)|[(? & _)|(dm & Hdm & _ & [(? & _)|[(? & _ & _ & ? & _)|
         (it & w & h & r & _ & _ & _ & He & Hf & Hd & Hr & Hn & Hc & _ & Hsz & Hnm)]])]];
    try discriminate.
  repeat split; eauto using accounted_live; apply Hf.
Qed.

(** X2: a successful [open] of an initialised session leaves the cursor at
    0 after exactly one call of the decoder and without an error message;
    it has acquired one file handle, which stays open, one demuxer and one
    raster, and the three pointers of the session are live. *)
Theorem open_success_resources s0 name spec sp s :
  initialised s0 = true → open name spec s0 = Ret (true, sp, s) →
  current_subimage s = 0 ∧ decode_calls s = S (decode_calls s0) ∧
  errors s = errors s0 ∧
  m_filename s = name ∧ m_image_size s = file_size name ∧
  file_open s0 s ∧
  (∃ dm, WebPDemux (fread name (file_size name)) = Some dm ∧
         demux_live s0 s dm) ∧
  (∃ raster, image_live s0 s raster) ∧
  pointers_live s = true.
Proof. apply open_success_accounting. Qed.

(** X3: the spec a successful [open] hands back to the caller is the canvas
    spec built before the first seek: canvas width and height as in
    [m_spec], 4 channels, UINT8, the sRGB tag, and neither [oiio:Movie] nor
    [FramesPerSecond], also when the file is animated and [m_spec] carries
    them. *)
Theorem open_caller_spec s0 name spec sp s :
  initialised s0 = true → open name spec s0 = Ret (true, sp, s) →
  (∃ dm, container s = Some dm ∧ sp = canvas_spec dm) ∧
  width sp = width (m_spec s) ∧ height sp = height (m_spec s) ∧
  nchannels sp = 4 ∧ format sp = UINT8 ∧
  attributes sp = {["oiio:ColorSpace" := AttrString "sRGB"]} ∧
  attributes sp !! "oiio:Movie" = None ∧
  attributes sp !! "FramesPerSecond" = None.
Proof.
  intros Hi Ho.
  pose proof Hi as (_ & _ & _ & Hc)%initialised_spec.
  destruct (open_true _ _ _ _ _ Hc Ho)
    as (hw & hh & dm & it & w & h & r & _ & Hdm & _ & _ & _ & _ & _ & Hct & Hw & Hh & _).
  destruct (open_initialised _ _ _ _ _ _ Hi Ho)
    as [(? & _)|[(? & _)|(dm' & Hdm' & -> & _)]]; try discriminate.
  rewrite Hdm in Hdm'. simplify_eq.
  rewrite Hw, Hh. repeat split; eauto.
Qed.

(** What [close] does to a session with live pointers. *)
Lemma close_live s :
  pointers_live s = true →
  ∃ s', close s = Ret (true, s') ∧
        files s' = match m_file s with
                   | Some f => files s ∖ {[f]} | None => files s end ∧
        images s' = match m_decoded_image s with
                    | Some p => delete p (images s) | None => images s end ∧
        demuxers s' = match m_demux s with
                      | Some d => delete d (demuxers s) | None => demuxers s end ∧
        m_file s' = None ∧ m_decoded_image s' = None ∧
        m_demux s' = m_demux s ∧ m_subimage s' = m_subimage s ∧
        m_spec s' = m_spec s ∧ m_scanline_size s' = m_scanline_size s.
Proof.
  intros Hl. destruct (close_returns s Hl) as [s' Hc]. exists s'.
  destruct (close_inv _ _ _ Hc) as (_ & ? & ? & ? & _ & _ & _ & ? & ? & ?).
  destruct (close_frees _ _ _ Hc) as (? & ? & ? & _).
  repeat split; auto.
Qed.

(** X4: [open] and [close] pair up: after a successful [open] of an
    initialised session [close] returns true, and the open files, the live
    demuxers and the allocated rasters are exactly those of before the
    [open]. *)
Theorem open_close_releases s0 name spec sp s :
  initialised s0 = true → open name spec s0 = Ret (true, sp, s) →
  ∃ s', close s = Ret (true, s') ∧
        files s' = files s0 ∧ demuxers s' = demuxers s0 ∧
        images s' = images s0.
Proof.
  intros Hi Ho.
  destruct (open_success_accounting _ _ _ _ _ Hi Ho)
    as (_ & _ & _ & _ & _ & [Hf Hfs] & (dm & _ & [Hd Hds]) & (r & [Hr Hrs]) & Hl).
  destruct (close_live s Hl) as (s' & Hc & Hfs' & His' & Hds' & _).
  exists s'. split; [exact Hc|].
  rewrite Hfs', His', Hds', Hf, Hfs, Hd, Hds, Hr, Hrs.
  rewrite fresh_file_removed, !delete_insert_id by apply fresh_lookup.
  auto.
Qed.

(** X5: when [open] of an initialised session fails without having called
    the decoder (rejected file, unreadable header, parse failure, frame 1
    not found), the session can be closed: [close] returns true and the
    open files, live demuxers and allocated rasters are those of before the
    [open], although some of these failures leave the file handle open. *)
Theorem failed_open_closable s0 name spec sp s :
  initialised s0 = true → open name spec s0 = Ret (false, sp, s) →
  decode_calls s = decode_calls s0 →
  ∃ s', close s = Ret (true, s') ∧
        files s' = files s0 ∧ demuxers s' = demuxers s0 ∧
        images s' = images s0.
Proof.
  intros Hi Ho Hn.
  assert (∃ s', close s = Ret (true, s') ∧
            files s' = match m_file s with
                       | Some f => files s ∖ {[f]} | None => files s end ∧
            images s' = match m_decoded_image s with
                        | Some p => delete p (images s) | None => images s end ∧
            demuxers s' = match m_demux s with
                          | Some d => delete d (demuxers s)
                          | None => demuxers s end) as Hclose.
  { enough (pointers_live s = true) as Hl
      by (destruct (close_live s Hl) as (s' & ? & ? & ? & ? & _); eauto 10).
    apply pointers_live_spec.
    destruct (open_initialised _ _ _ _ _ _ Hi Ho)
      as [(_ & _ & _ & [Hf Hfs] & [Hd Hds] & [Hr Hrs] & _)
         |[(_ & _ & _ & _ & [Hf Hfs] & [Hd Hds] & [Hr Hrs] & _)
          |(dm & _ & _ & [(_ & _ & _ & [Hf Hfs] & [Hd Hds] & [Hr Hrs] & _)
                         |[(it & _ & _ & _ & _ & _ & _ & _ & ? & _)|(it & w & h & r & _ & _ & ? & _)]])]];
      try discriminate; try lia;
      rewrite Hf, Hfs, Hd, Hds, Hr, Hrs; repeat split; intros; simplify_eq;
      rewrite ?lookup_insert_eq; eauto;
      apply elem_of_union_l, elem_of_singleton; reflexivity. }
  destruct Hclose as (s' & Hc & Hfs' & His' & Hds'). exists s'.
  split; [exact Hc|]. rewrite Hfs', His', Hds'.
  destruct (open_initialised _ _ _ _ _ _ Hi Ho)
    as [(_ & _ & _ & [Hf Hfs] & [Hd Hds] & [Hr Hrs] & _)
       |[(_ & _ & _ & _ & [Hf Hfs] & [Hd Hds] & [Hr Hrs] & _)
        |(dm & _ & _ & [(_ & _ & _ & [Hf Hfs] & [Hd Hds] & [Hr Hrs] & _)
                       |[(it & _ & _ & _ & _ & _ & _ & _ & ? & _)|(it & w & h & r & _ & _ & ? & _)]])]];
    try discriminate; try lia;
    rewrite Hf, Hfs, Hd, Hds, Hr, Hrs;
    rewrite ?fresh_file_removed, ?delete_insert_id by apply fresh_lookup;
    auto.
Qed.

(** X6: when [open] of an initialised session fails after having called the
    decoder (frame 1 does not decode), [seek_subimage] has closed the
    session: the file handle is released and the message says so, but
    [m_demux] still points to the deleted demuxer, and a [close] of this
    session (the destructor calls it) deletes the demuxer again. *)
Theorem open_decode_failure_not_closable s0 name spec sp s :
  initialised s0 = true → open name spec s0 = Ret (false, sp, s) →
  decode_calls s ≠ decode_calls s0 →
  errors s = errors s0 ++ [CouldntDecode name 1] ∧
  file_closed s0 s ∧ demux_dangling s0 s ∧ container s = None ∧
  close s = Undefined.
Proof.
  intros Hi Ho Hn.
  destruct (open_initialised _ _ _ _ _ _ Hi Ho)
    as [(_ & _ & _ & _ & _ & _ & ? & _)
       |[(_ & _ & _ & _ & _ & _ & _ & ? & _)
        |(dm & _ & _ & [(_ & _ & _ & _ & _ & _ & ? & _)
                       |[(it & _ & _ & _ & He & [Hf Hfs] & [Hd Hds] & [Hr Hrs] & _)
                        |(it & w & h & r & _ & _ & ? & _)]])]];
    try discriminate; try congruence.
  assert (demuxers s !! fresh (dom (demuxers s0)) = None) as Hgone
    by (rewrite Hds; apply fresh_lookup).
  repeat split; auto.
  - unfold container. rewrite Hd. exact Hgone.
  - unfold close, demux_delete. exec. rewrite Hf, Hr. cbn. rewrite Hd. cbn.
    rewrite Hgone. reflexivity.
Qed.

(** X7: when [open] of an initialised session reports that the container
    does not parse, it returns false with the caller's spec as it was and
    leaves the file handle open: [m_file] is the handle it opened (the
    [close()] of that path is commented out in the source). *)
Theorem open_parse_failure_keeps_file s0 name spec b sp s :
  initialised s0 = true → open name spec s0 = Ret (b, sp, s) →
  errors s = errors s0 ++ [FailedToParse name] →
  b = false ∧ sp = spec ∧
  WebPDemux (fread name (file_size name)) = None ∧
  file_open s0 s ∧ (∃ f, m_file s = Some f ∧ f ∈ files s) ∧
  demux_none s0 s ∧ image_none s0 s.
Proof.
  intros Hi Ho He.
  destruct (open_initialised _ _ _ _ _ _ Hi Ho)
    as [(_ & _ & (e & He' & Hb) & _)
       |[(Hb & Hsp & _ & Hnone & Hfo & Hdn & Hin & _)
        |(dm & _ & _ & [(_ & He' & _)
                       |[(it & _ & _ & _ & He' & _)
                        |(it & w & h & r & _ & _ & _ & He' & _)]])]].
  - rewrite He' in He. apply app_inj_tail in He as [_ ->]. discriminate.
  - do 4 (split; [assumption|]). split; [|split; assumption].
    destruct Hfo as [Hf Hfs]. exists (fresh (files s0)). split; [exact Hf|].
    rewrite Hfs. apply elem_of_union_l, elem_of_singleton. reflexivity.
  - rewrite He' in He. apply (f_equal length) in He.
    rewrite length_app in He. cbn in He. lia.
  - rewrite He' in He. apply app_inj_tail in He as [_ ?]. discriminate.
  - rewrite He' in He. apply (f_equal length) in He.
    rewrite length_app in He. cbn in He. lia.
Qed.


Ltac live :=
  match goal with
  | Hl : pointers_live _ = true |- pointers_live _ = true =>
      apply pointers_live_spec in Hl as (? & ? & ?);
      apply pointers_live_spec; cbn; repeat split; intros; simplify_eq;
      rewrite ?lookup_insert_eq; eauto;
      try (apply elem_of_union_l, elem_of_singleton; reflexivity)
  end.


(** In the model [seek_subimage] returns on a session with live pointers
    (the lifetime of the fragment the decoder reads is not part of it). *)
Lemma seek_subimage_returns s k miplevel :
  pointers_live s = true →
  ∃ b s', seek_subimage k miplevel s = Ret (b, s') ∧
          (pointers_live s' = true
           ∨ (b = false ∧ decode_calls s' = S (decode_calls s))).
Proof.
  intros Hl. unfold seek_subimage.
  destruct ((k <? 0) || negb (miplevel =? 0)); [exec; eauto 10|].
  exec. destruct (m_subimage s =? k); [eauto 10|].
  unfold demux_get_frame, decode_rgba. exec.
  assert (∃ dm, deref_demux s = Some dm) as [dm ->].
  { unfold deref_demux. destruct (m_demux s) as [d|] eqn:Hd; [|eauto].
    pose proof Hl as (_ & _ & Hd')%pointers_live_spec.
    destruct (Hd' d Hd) as [dm ->]. eauto. }
  exec. destruct (WebPDemuxGetFrame dm (k + 1) (m_iter s)) as [[] it]; cbn.
  2: { do 2 eexists. split; [reflexivity|]. left. exact Hl. }
  destruct (WebPDecodeRGBA (fragment it)) as [[[w h] raster]|]; cbn.
  - do 2 eexists. split; [reflexivity|]. left. live.
  - match goal with |- context [close ?X] =>
      destruct (close_returns X) as [s' Hc]; [live|]; rewrite Hc end.
    do 2 eexists. split; [reflexivity|]. right. split; [reflexivity|].
    destruct (close_inv _ _ _ Hc) as (_ & _ & _ & _ & _ & -> & _). reflexivity.
Qed.

(** X9: [seek_subimage] keeps the pointers of the session live: when it
    returns on a session whose pointers are live, they are live afterwards,
    except when it found the frame and failed to decode it (it then
    returns false after one more call of the decoder). *)
Theorem seek_subimage_live s k miplevel b s' :
  pointers_live s = true → seek_subimage k miplevel s = Ret (b, s') →
  pointers_live s' = true
  ∨ (b = false ∧ decode_calls s' = S (decode_calls s)).
Proof.
  intros Hl H.
  destruct (seek_subimage_returns s k miplevel Hl) as (b0 & s0 & E & Hs).
  rewrite E in H. simplify_eq. exact Hs.
Qed.

(** X18: a seek that returns true can be repeated at once: the second call
    returns true and changes nothing, and the two calls together call the
    decoder at most once. *)
Theorem seek_subimage_repeatable s k miplevel s1 :
  seek_subimage k miplevel s = Ret (true, s1) →
  twice (seek_subimage k miplevel) s = Ret (true, s1) ∧
  (decode_calls s1 ≤ S (decode_calls s))%nat.
Proof. apply seek_subimage_twice. Qed.

(** X19: a seek that decodes a frame never frees: every raster allocated
    before the call is still allocated after it, and there is one more. *)
Theorem seek_subimage_keeps_rasters s k miplevel s1 :
  seek_subimage k miplevel s = Ret (true, s1) → current_subimage s ≠ k →
  size (images s1) = S (size (images s)) ∧ images s ⊆ images s1.
Proof. apply seek_subimage_allocates. Qed.


(** X11: [close] does not reset the cursor, so after [close] a read of a row
    of the subimage that was current passes the seek and the row check and
    copies from the NULL raster pointer: undefined behaviour. *)
Theorem read_after_close_undefined s y data :
  pointers_live s = true → 0 ≤ current_subimage s →
  0 ≤ y < height (m_spec s) →
  (close;; read_native_scanline (current_subimage s) 0 y data) s = Undefined.
Proof.
  intros Hl Hk Hy.
  destruct (close_live s Hl) as (s' & Hc & _ & _ & _ & _ & Hi & _ & Hcur & Hsp & _).
  unfold mbind, M_bind at 1. rewrite Hc.
  unfold read_native_scanline, mbind, M_bind.
  rewrite (seek_subimage_at_cursor s' (current_subimage s) Hk Hcur).
  exec. cbn. rewrite Hsp, Z.geb_leb.
  destruct (Z.ltb_spec y 0); [lia|]. destruct (Z.leb_spec (height (m_spec s)) y); [lia|].
  cbn. unfold memcpy_from_image. exec. rewrite Hi. reflexivity.
Qed.

(** X12: [close] does not reset [m_demux], so after [close] of a session
    that held a container a seek to any other valid index hands the deleted
    demuxer to [WebPDemuxGetFrame]: undefined behaviour. *)
Theorem seek_after_close_undefined s d j :
  pointers_live s = true → m_demux s = Some d →
  0 ≤ j → j ≠ current_subimage s →
  (close;; seek_subimage j 0) s = Undefined.
Proof.
  intros Hl Hd Hj Hne.
  destruct (close_live s Hl) as (s' & Hc & _ & _ & Hds & _ & _ & Hd' & Hcur & _).
  unfold mbind, M_bind at 1. rewrite Hc.
  unfold seek_subimage. destruct (Z.ltb_spec j 0); [lia|]. cbn [orb negb Z.eqb].
  exec. rewrite Hcur. destruct (Z.eqb_spec (m_subimage s) j) as [E|_].
  { unfold current_subimage in Hne. congruence. }
  unfold demux_get_frame, deref_demux. exec.
  rewrite Hd', Hd, Hds, Hd, lookup_delete_eq. reflexivity.
Qed.

(** X13: the session after [read_native_scanline] is the session after its
    seek, whatever the row; a read that returns true has sought
    successfully, and a read that returns false leaves the caller's buffer
    as it was. *)
Theorem read_native_scanline_effect s subimage miplevel y data ok out s' :
  read_native_scanline subimage miplevel y data s = Ret (ok, out, s') →
  ∃ b, seek_subimage subimage miplevel s = Ret (b, s') ∧
       ((ok = true ∧ b = true) ∨ (ok = false ∧ out = data)).
Proof.
  unfold read_native_scanline, memcpy_from_image.
  split_cases; intros; simplify_eq/=;
    repeat match goal with
      | H : negb ?b = _ |- _ => is_var b; destruct b; try discriminate
      end;
    eauto.
Qed.

Lemma close_null s :
  m_file s = None → m_decoded_image s = None → m_demux s = None →
  close s = Ret (true, with_iter (WebPDemuxReleaseIterator (m_iter s)) s).
Proof.
  intros Hf Hi Hd. unfold close. exec. rewrite Hf. cbn. rewrite Hi. cbn.
  rewrite Hd. reflexivity.
Qed.

(** X14: where no container is held [close] can be repeated: on a session
    with live pointers and NULL [m_demux] (never opened, or whose [open]
    failed before the container was parsed) a first [close] returns true,
    and a second one returns true and changes nothing but the iterator it
    passes to [WebPDemuxReleaseIterator]. *)
Theorem close_without_container_repeats s :
  pointers_live s = true → m_demux s = None →
  ∃ s1, close s = Ret (true, s1) ∧
        close s1 = Ret (true, with_iter (WebPDemuxReleaseIterator (m_iter s1)) s1).
Proof.
  intros Hl Hd.
  destruct (close_live s Hl) as (s1 & Hc & _ & _ & _ & Hf & Hi & Hd' & _).
  exists s1. split; [exact Hc|]. apply close_null; congruence.
Qed.

(** X15: a seek that returns true away from the cursor has asked the
    demuxer for frame [k + 1] (frames count from 1, subimages from 0),
    called the decoder once on the fragment of that frame, and holds the
    decoder's raster as it came; the cursor is [k] and [m_iter] is the
    iterator of that frame. *)
Theorem seek_subimage_frame_number s k miplevel s1 :
  seek_subimage k miplevel s = Ret (true, s1) → current_subimage s ≠ k →
  ∃ dm it w h raster,
    deref_demux s = Some dm ∧
    WebPDemuxGetFrame dm (k + 1) (m_iter s) = (true, it) ∧
    WebPDecodeRGBA (fragment it) = Some (w, h, raster) ∧
    m_iter s1 = it ∧ current_subimage s1 = k ∧
    raw_image s1 = Some raster ∧
    decode_calls s1 = S (decode_calls s) ∧ errors s1 = errors s.
Proof.
  intros H Hk.
  destruct (seek_subimage_decodes _ _ _ _ H Hk)
    as (dm & it & w & h & r & ? & ? & ? & ->).
  exists dm, it, w, h, r. repeat split; auto.
  unfold raw_image. cbn. apply lookup_insert_eq.
Qed.

Lemma init_initialised s : ∃ s', init s = Ret ((), s') ∧ initialised s' = true.
Proof.
  unfold init. exec. eexists. split; [reflexivity|].
  apply initialised_spec. cbn. auto.
Qed.

(** X17: when [open] of an initialised session reports one of the messages
    that come before the container is parsed (not a regular file, size
    unknown or below 12, cannot open, short read of header or of data, not
    a WebP header), it has returned false with the caller's spec as it was
    and no file handle left open, and the session is initialised as before,
    ready for another [open]. *)
Theorem open_failure_before_parse s0 name spec b sp s e :
  initialised s0 = true → open name spec s0 = Ret (b, sp, s) →
  errors s = errors s0 ++ [e] → before_parse e = true →
  b = false ∧ sp = spec ∧ file_closed s0 s ∧ demux_none s0 s ∧
  image_none s0 s ∧ decode_calls s = decode_calls s0 ∧
  initialised s = true.
Proof.
  intros Hi Ho He Hb.
  destruct (open_initialised _ _ _ _ _ _ Hi Ho)
    as [(? & ? & _ & Hf & Hd & Hr & ? & ?)
       |[(_ & _ & He' & _)
        |(dm & _ & _ & [(_ & He' & _)
                       |[(it & _ & _ & _ & He' & _)
                        |(it & w & h & r & _ & _ & _ & He' & _)]])]].
  - do 6 (split; [assumption|]). apply initialised_spec.
    destruct Hf as [? _], Hd as [? _], Hr as [? _]. auto.
  - rewrite He' in He. apply app_inj_tail in He as [_ <-]. discriminate.
  - rewrite He' in He. apply (f_equal length) in He.
    rewrite length_app in He. cbn in He. lia.
  - rewrite He' in He. apply app_inj_tail in He as [_ <-]. discriminate.
  - rewrite He' in He. apply (f_equal length) in He.
    rewrite length_app in He. cbn in He. lia.
Qed.

End ResourceProperties.

(** ** The library version string *)

Section LibraryVersion.

Lemma shiftl_land_255 a n : 8 ≤ n → Z.land (a ≪ n) 255 = 0.
Proof.
  intros Hn. change 255 with (Z.ones 8). rewrite Z.land_ones by lia.
  rewrite Z.shiftl_mul_pow2 by lia.
  replace n with (n - 8 + 8) by lia. rewrite Z.pow_add_r by lia.
  rewrite Z.mul_assoc. apply Z_mod_mult.
Qed.

Lemma small_land_255 a : 0 ≤ a < 256 → Z.land a 255 = a.
Proof.
  intros Ha. change 255 with (Z.ones 8). rewrite Z.land_ones by lia.
  apply Z.mod_small. lia.
Qed.

Lemma small_shiftr a n : 0 ≤ a < 256 → 8 ≤ n → a ≫ n = 0.
Proof.
  intros Ha Hn. rewrite Z.shiftr_div_pow2 by lia. apply Z.div_small.
  split; [lia|]. apply Z.lt_le_trans with (2 ^ 8); [lia|].
  apply Z.pow_le_mono_r; lia.
Qed.

(** X16: [webp_imageio_library_version] takes apart what libwebp packs: for
    a version number made of a major part and of minor and revision parts
    below 256, eight bits each, the string is [Webp major.minor.revision]
    in decimal. *)
Theorem library_version_unpacks major minor revision :
  0 ≤ major → 0 ≤ minor < 256 → 0 ≤ revision < 256 →
  webp_imageio_library_version
    (Z.lor (major ≪ 16) (Z.lor (minor ≪ 8) revision))
  = "Webp " +:+ pretty major +:+ "." +:+ pretty minor +:+ "."
    +:+ pretty revision.
Proof.
  intros Hmaj Hmin Hrev. unfold webp_imageio_library_version.
  assert (Z.lor (major ≪ 16) (Z.lor (minor ≪ 8) revision) ≫ 16 = major) as ->.
  { rewrite !Z.shiftr_lor, Z.shiftr_shiftl_l by lia.
    rewrite (Z.shiftr_shiftl_r minor 8 16) by lia.
    rewrite !small_shiftr by lia. cbn. rewrite !Z.lor_0_r. reflexivity. }
  assert (Z.land (Z.lor (major ≪ 16) (Z.lor (minor ≪ 8) revision) ≫ 8) 255
          = minor) as ->.
  { rewrite !Z.shiftr_lor, !Z.shiftr_shiftl_l by lia. cbn.
    rewrite small_shiftr by lia. rewrite Z.lor_0_r, Z.shiftl_0_r.
    rewrite Z.land_lor_distr_l, shiftl_land_255, small_land_255 by lia.
    reflexivity. }
  assert (Z.land (Z.lor (major ≪ 16) (Z.lor (minor ≪ 8) revision)) 255
          = revision) as ->.
  { rewrite !Z.land_lor_distr_l, !shiftl_land_255, small_land_255 by lia.
    reflexivity. }
  reflexivity.
Qed.

End LibraryVersion.

(** ** The reader on the example files *)

Module Examples.
Import MemCodec.

(** The scenario of the specification: row 0 of the 2 x 2 opaque red frame. *)
Example red_2x2_row_0 :
  result (open_then red_2x2 exact_iba
            (read_native_scanline 0 0 0 [0; 0; 0; 0; 0; 0; 0; 0]))
  = Some (true, [255; 0; 0; 255; 255; 0; 0; 255]).
Proof. vm_compute. reflexivity. Qed.

Lemma seek_subimage_idempotent_witness :
  let s := session (opened two_frames exact_iba) in
  seek_subimage 0 0 s = Ret (true, s) ∧
  twice (seek_subimage 0 0) s = Ret (true, s).
Proof.
  intros s. apply (seek_subimage_idempotent s 0); [lia|].
  vm_compute. reflexivity.
Defined.

Lemma seek_subimage_rejects_witness :
  let s := session (opened two_frames exact_iba) in
  seek_subimage 0 1 s = Ret (false, s).
Proof.
  intros s. apply (seek_subimage_rejects s 0 1). right. lia.
Defined.

Lemma close_keeps_cursor_witness :
  let s := session (opened two_frames exact_iba) in
  ∃ s', close s = Ret (true, s') ∧
        current_subimage s' = current_subimage s ∧
        m_decoded_image s' = None ∧ raw_image s' = None ∧
        container s' = None ∧
        seek_subimage (current_subimage s) 0 s' = Ret (true, s').
Proof.
  intros s. apply (close_keeps_cursor s).
  - vm_compute. reflexivity.
  - vm_compute. discriminate.
Defined.

(** C2 fails where the decode fails: on the file whose second fragment is
    truncated, [seek_subimage(1, 0)] after [open] returns false, and the
    cursor has moved from 0 to 1 and the raster of frame 0 is no longer held
    by the session. *)
Lemma seek_decode_failure_commits :
  let s := session (opened second_frame_corrupt exact_iba) in
  let s' := session (seek_subimage 1 0 s) in
  result (seek_subimage 1 0 s) = Some false ∧
  current_subimage s = 0 ∧ raw_image s = Some [255; 0; 0; 255] ∧
  current_subimage s' = 1 ∧ raw_image s' = None.
Proof. vm_compute. repeat split; reflexivity. Qed.

Lemma seek_subimage_failure_witness :
  let s := session (opened second_frame_corrupt exact_iba) in
  let s' := session (seek_subimage 1 0 s) in
  m_file s' = None ∧
  files s' = match m_file s with
             | Some f => files s ∖ {[f]} | None => files s end ∧
  m_decoded_image s' = None ∧ raw_image s' = None ∧
  container s' = None ∧
  demuxers s' = match m_demux s with
                | Some d => delete d (demuxers s) | None => demuxers s end ∧
  decode_calls s' = S (decode_calls s) ∧
  errors s' = errors s ++ [CouldntDecode (m_filename s) (1 + 1)].
Proof.
  intros s s'.
  apply (seek_subimage_failure s 1 0 s').
  - vm_compute. reflexivity.
  - lia.
  - reflexivity.
  - eexists. split; vm_compute; reflexivity.
Defined.

(** The frame-not-found side of the same theorem: index 2 of a two-frame
    file. The session is as before. *)
Example seek_past_the_end :
  let s := session (opened two_frames exact_iba) in
  seek_subimage 2 0 s = Ret (false, with_iter no_frame s).
Proof. vm_compute. reflexivity. Qed.

(** C3 at the failing input: on the two-frame file, whatever [ImageBufAlgo]
    does, the raster of frame 0 after [open] is the normalised decoder
    output, while row 0 of subimage 1 is read back as the decoder produced
    it: [255; 0; 0; 0], red 255 under alpha 0; and frame 0, sought again
    from frame 1, is the decoder output too. *)
Theorem second_frame_not_normalized (IBA : ImageBufAlgo) :
  raw_image (session (opened two_frames IBA))
  = Some (normalized_at_open 1 1 [255; 0; 0; 255]) ∧
  result (open_then two_frames IBA (read_native_scanline 1 0 0 [0; 0; 0; 0]))
  = Some (true, [255; 0; 0; 0]) ∧
  raw_image (session (open_then two_frames IBA (seek_subimage 1 0)))
  = Some [255; 0; 0; 0] ∧
  raw_image (session (open_then two_frames IBA
                        (seek_subimage 1 0;; seek_subimage 0 0)))
  = Some [255; 0; 0; 255].
Proof. vm_compute. repeat split; reflexivity. Qed.

(** With the exact-arithmetic [ImageBufAlgo] the normalised pixel would have
    been black. *)
Example transparent_red_normalized :
  normalized_at_open (IBA := exact_iba) 1 1 [255; 0; 0; 0] = [0; 0; 0; 0].
Proof. vm_compute. reflexivity. Qed.

(** C4 at the failing input: after [open] and [seek_subimage(1, 0)] on the
    two-frame file two rasters are allocated, the one the session points to
    and the raster of frame 0; [close] frees the first only. *)
Theorem seek_keeps_previous_raster (IBA : ImageBufAlgo) :
  let s := session (open_then two_frames IBA (seek_subimage 1 0)) in
  let s' := session (open_then two_frames IBA (seek_subimage 1 0;; close)) in
  size (images s) = 2%nat ∧ m_decoded_image s = Some 1%nat ∧
  is_Some (images s !! 0%nat) ∧
  m_decoded_image s' = None ∧ size (images s') = 1%nat ∧
  is_Some (images s' !! 0%nat).
Proof. vm_compute. repeat split; eauto. Qed.

(** C5 at the failing input: [open], then [close] twice. The first [close]
    returns true and releases the file handle, the raster and the demuxer,
    resetting [m_file] and [m_decoded_image] but not [m_demux]; the second
    passes the deleted demuxer to [WebPDemuxDelete] again. *)
Theorem close_twice_deletes_demuxer_twice (IBA : ImageBufAlgo) :
  let s := session (open_then two_frames IBA close) in
  result (open_then two_frames IBA close) = Some true ∧
  m_file s = None ∧ files s = ∅ ∧ m_decoded_image s = None ∧
  m_demux s = Some 0%nat ∧ demuxers s = ∅ ∧
  close s = Undefined ∧
  open_then two_frames IBA (twice close) = Undefined.
Proof. vm_compute. repeat split; reflexivity. Qed.

(** On a session that was never opened [close] can be repeated. *)
Example close_unopened_twice :
  twice close new_session = Ret (true, new_session).
Proof. vm_compute. reflexivity. Qed.

Lemma read_native_scanline_rows_witness :
  let s := session (opened two_frames exact_iba) in
  let s1 := session (seek_subimage 1 0 s) in
  ∃ out, read_native_scanline 1 0 0 [0; 0; 0; 0] s = Ret (out, s1) ∧
         out = (if (0 <=? 0) && (0 <? 1)
                then (true, scanline [255; 0; 0; 0] (1 * 4) 0)
                else (false, [0; 0; 0; 0])) ∧
         Z.of_nat (length out.2) = 1 * 4.
Proof.
  intros s s1.
  apply (read_native_scanline_rows s 1 0 0 [0; 0; 0; 0] s1 [255; 0; 0; 0] 1 1);
    vm_compute; try reflexivity; discriminate.
Defined.

Lemma open_animation_attributes_witness :
  let s0 := new_session in
  let s := session (opened two_frames exact_iba) in
  (∃ dm, container s = Some dm ∧
         WebPDemuxGetFrame (Some dm) 1 (m_iter s0) = (true, m_iter s)) ∧
  attributes (m_spec s) !! "oiio:Movie" =
    (if 1 <? num_frames (m_iter s) then Some (AttrInt 1) else None) ∧
  attributes (m_spec s) !! "FramesPerSecond" =
    (if 1 <? num_frames (m_iter s)
     then Some (AttrRational 1000 (duration (m_iter s))) else None).
Proof.
  intros s0 s.
  apply (open_animation_attributes (FS := scenario_fs two_frames)
           (IBA := exact_iba) "in.webp" (ImageSpec_new 0 0 0 UINT8) s0
           (attribute "oiio:ColorSpace" (AttrString "sRGB")
              (ImageSpec_new 1 1 4 UINT8)) s).
  - reflexivity.
  - vm_compute. reflexivity.
Defined.

(** The attributes of the two example files: 40 ms per frame, and a still. *)
Example two_frames_attributes :
  let sp := m_spec (session (opened two_frames exact_iba)) in
  attributes sp !! "oiio:Movie" = Some (AttrInt 1) ∧
  attributes sp !! "FramesPerSecond" = Some (AttrRational 1000 40).
Proof. vm_compute. split; reflexivity. Qed.

Example red_2x2_attributes :
  let sp := m_spec (session (opened red_2x2 exact_iba)) in
  attributes sp !! "oiio:Movie" = None ∧
  attributes sp !! "FramesPerSecond" = None.
Proof. vm_compute. split; reflexivity. Qed.

Lemma normalize_alpha_cases_witness :
  ColorNormalizer.alpha
    (ColorNormalizer.normalize (ColorNormalizer.rgba 200 100 50 128))
  = ColorNormalizer.alpha (ColorNormalizer.rgba 200 100 50 128) ∧
  ColorNormalizer.normalize (ColorNormalizer.rgba 200 100 50 255)
  = ColorNormalizer.rgba 200 100 50 255 ∧
  ColorNormalizer.normalize (ColorNormalizer.rgba 200 100 50 0)
  = ColorNormalizer.rgba 0 0 0 0.
Proof.
  apply (ColorNormalizerProperties.normalize_alpha_cases 200 100 50 128); lia.
Defined.

End Examples.

(** ** The resource and error-path theorems on the example files *)

Module Coverage.
Import MemCodec MemFiles.

Definition spec0 : ImageSpec := ImageSpec_new 0 0 0 UINT8.

Lemma open_rejects_early_witness :
  ∃ s, open (FS := file_system eleven_bytes) (IBA := exact_iba)
         "in.webp" spec0 new_session = Ret (false, spec0, s) ∧
       m_filename s = "in.webp" ∧
       length (errors s) = S (length (errors new_session)) ∧
       m_file s = m_file new_session ∧ files s = files new_session ∧
       m_demux s = m_demux new_session ∧ demuxers s = demuxers new_session ∧
       m_decoded_image s = m_decoded_image new_session ∧
       images s = images new_session ∧
       current_subimage s = current_subimage new_session ∧
       decode_calls s = decode_calls new_session.
Proof.
  apply (open_rejects_early (FS := file_system eleven_bytes) (IBA := exact_iba)).
  vm_compute. reflexivity.
Defined.

Lemma open_success_resources_witness :
  let s := session (opened two_frames exact_iba) in
  current_subimage s = 0 ∧ decode_calls s = S (decode_calls new_session) ∧
  errors s = errors new_session ∧
  m_filename s = "in.webp" ∧
  m_image_size s = file_size (Filesystem := file_system two_frames) "in.webp" ∧
  file_open new_session s ∧
  (∃ dm, WebPDemux (fread (Filesystem := file_system two_frames) "in.webp"
                      (file_size (Filesystem := file_system two_frames) "in.webp"))
         = Some dm ∧ demux_live new_session s dm) ∧
  (∃ raster, image_live new_session s raster) ∧
  pointers_live s = true.
Proof.
  intros s.
  apply (open_success_resources (FS := file_system two_frames)
           (IBA := exact_iba) new_session "in.webp" spec0
           (spec_of (opened two_frames exact_iba)) s);
    vm_compute; reflexivity.
Defined.

Lemma open_caller_spec_witness :
  let s := session (opened two_frames exact_iba) in
  let sp := spec_of (opened two_frames exact_iba) in
  (∃ dm, container s = Some dm ∧ sp = canvas_spec dm) ∧
  width sp = width (m_spec s) ∧ height sp = height (m_spec s) ∧
  nchannels sp = 4 ∧ format sp = UINT8 ∧
  attributes sp = {["oiio:ColorSpace" := AttrString "sRGB"]} ∧
  attributes sp !! "oiio:Movie" = None ∧
  attributes sp !! "FramesPerSecond" = None.
Proof.
  intros s sp.
  apply (open_caller_spec (FS := file_system two_frames) (IBA := exact_iba)
           new_session "in.webp" spec0 sp s);
    vm_compute; reflexivity.
Defined.

Lemma open_close_releases_witness :
  let s := session (opened two_frames exact_iba) in
  ∃ s', close s = Ret (true, s') ∧
        files s' = files new_session ∧ demuxers s' = demuxers new_session ∧
        images s' = images new_session.
Proof.
  intros s.
  apply (open_close_releases (FS := file_system two_frames) (IBA := exact_iba)
           new_session "in.webp" spec0 (spec_of (opened two_frames exact_iba)) s);
    vm_compute; reflexivity.
Defined.

Lemma failed_open_closable_witness :
  let s := session (opened missing_frame exact_iba) in
  ∃ s', close s = Ret (true, s') ∧
        files s' = files new_session ∧ demuxers s' = demuxers new_session ∧
        images s' = images new_session.
Proof.
  intros s.
  apply (failed_open_closable (FS := file_system missing_frame)
           (IBA := exact_iba) new_session "in.webp" spec0
           (spec_of (opened missing_frame exact_iba)) s);
    vm_compute; reflexivity.
Defined.

Lemma open_decode_failure_not_closable_witness :
  let s := session (opened first_frame_corrupt exact_iba) in
  errors s = errors new_session ++ [CouldntDecode "in.webp" 1] ∧
  file_closed new_session s ∧ demux_dangling new_session s ∧
  container s = None ∧ close s = Undefined.
Proof.
  intros s.
  apply (open_decode_failure_not_closable (FS := file_system first_frame_corrupt)
           (IBA := exact_iba) new_session "in.webp" spec0
           (spec_of (opened first_frame_corrupt exact_iba)) s).
  - vm_compute. reflexivity.
  - vm_compute. reflexivity.
  - vm_compute. discriminate.
Defined.

Lemma open_parse_failure_keeps_file_witness :
  let s := session (opened missing_frame exact_iba) in
  let sp := spec_of (opened missing_frame exact_iba) in
  false = false ∧ sp = spec0 ∧
  WebPDemux (fread (Filesystem := file_system missing_frame) "in.webp"
               (file_size (Filesystem := file_system missing_frame) "in.webp"))
  = None ∧
  file_open new_session s ∧ (∃ f, m_file s = Some f ∧ f ∈ files s) ∧
  demux_none new_session s ∧ image_none new_session s.
Proof.
  intros s sp.
  apply (open_parse_failure_keeps_file (FS := file_system missing_frame)
           (IBA := exact_iba) new_session "in.webp" spec0 false sp s);
    vm_compute; reflexivity.
Defined.


(** The failure without a message, evaluated. *)
Example no_frames_fails_silently :
  result (opened no_frames exact_iba)
  = Some (false, canvas_spec {| canvas_width := 1; canvas_height := 1; frames := [] |}) ∧
  errors (session (opened no_frames exact_iba)) = [].
Proof. vm_compute. split; reflexivity. Qed.

Lemma seek_subimage_live_witness :
  let s := session (opened two_frames exact_iba) in
  let s' := session (seek_subimage 1 0 s) in
  pointers_live s' = true
  ∨ (true = false ∧ decode_calls s' = S (decode_calls s)).
Proof.
  intros s s'. apply (seek_subimage_live s 1 0 true s');
    vm_compute; reflexivity.
Defined.


Lemma read_after_close_undefined_witness :
  let s := session (opened two_frames exact_iba) in
  (close;; read_native_scanline (current_subimage s) 0 0 [0; 0; 0; 0]) s
  = Undefined.
Proof.
  intros s. apply (read_after_close_undefined s 0 [0; 0; 0; 0]).
  - vm_compute. reflexivity.
  - vm_compute. discriminate.
  - vm_compute. split; [discriminate|reflexivity].
Defined.

Lemma seek_after_close_undefined_witness :
  let s := session (opened two_frames exact_iba) in
  (close;; seek_subimage 1 0) s = Undefined.
Proof.
  intros s. apply (seek_after_close_undefined s 0%nat 1).
  - vm_compute. reflexivity.
  - vm_compute. reflexivity.
  - lia.
  - vm_compute. discriminate.
Defined.

Lemma read_native_scanline_effect_witness :
  let s := session (opened two_frames exact_iba) in
  let s' := session (seek_subimage 1 0 s) in
  ∃ b, seek_subimage 1 0 s = Ret (b, s') ∧
       ((false = true ∧ b = true) ∨ (false = false ∧ [7; 7; 7; 7] = [7; 7; 7; 7])).
Proof.
  intros s s'.
  apply (read_native_scanline_effect s 1 0 5 [7; 7; 7; 7] false [7; 7; 7; 7] s').
  vm_compute. reflexivity.
Defined.

Lemma close_without_container_repeats_witness :
  ∃ s1, close new_session = Ret (true, s1) ∧
        close s1 = Ret (true, with_iter (WebPDemuxReleaseIterator (m_iter s1)) s1).
Proof.
  apply (close_without_container_repeats new_session); vm_compute; reflexivity.
Defined.

Lemma seek_subimage_frame_number_witness :
  let s := session (opened two_frames exact_iba) in
  let s1 := session (seek_subimage 1 0 s) in
  ∃ dm it w h raster,
    deref_demux s = Some dm ∧
    WebPDemuxGetFrame dm (1 + 1) (m_iter s) = (true, it) ∧
    WebPDecodeRGBA (fragment it) = Some (w, h, raster) ∧
    m_iter s1 = it ∧ current_subimage s1 = 1 ∧
    raw_image s1 = Some raster ∧
    decode_calls s1 = S (decode_calls s) ∧ errors s1 = errors s.
Proof.
  intros s s1. apply (seek_subimage_frame_number s 1 0 s1).
  - vm_compute. reflexivity.
  - vm_compute. discriminate.
Defined.

Lemma library_version_unpacks_witness :
  webp_imageio_library_version (Z.lor (1 ≪ 16) (Z.lor (3 ≪ 8) 2))
  = "Webp " +:+ pretty 1 +:+ "." +:+ pretty 3 +:+ "." +:+ pretty 2.
Proof. apply (library_version_unpacks 1 3 2); lia. Defined.

(** libwebp 1.3.2 reports 0x010302. *)
Example library_version_1_3_2 :
  webp_imageio_library_version 0x010302 = "Webp 1.3.2".
Proof. vm_compute. reflexivity. Qed.

Lemma seek_subimage_repeatable_witness :
  let s := session (opened two_frames exact_iba) in
  let s1 := session (seek_subimage 1 0 s) in
  twice (seek_subimage 1 0) s = Ret (true, s1) ∧
  (decode_calls s1 ≤ S (decode_calls s))%nat.
Proof.
  intros s s1. apply (seek_subimage_repeatable s 1 0 s1). vm_compute. reflexivity.
Defined.

Lemma seek_subimage_keeps_rasters_witness :
  let s := session (opened two_frames exact_iba) in
  let s1 := session (seek_subimage 1 0 s) in
  size (images s1) = S (size (images s)) ∧ images s ⊆ images s1.
Proof.
  intros s s1. apply (seek_subimage_keeps_rasters s 1 0 s1).
  - vm_compute. reflexivity.
  - vm_compute. discriminate.
Defined.

Lemma open_failure_before_parse_witness :
  let o := opened_in (file_of_size 100 two_frames) exact_iba in
  false = false ∧ spec_of o = spec0 ∧
  file_closed new_session (session o) ∧ demux_none new_session (session o) ∧
  image_none new_session (session o) ∧
  decode_calls (session o) = decode_calls new_session ∧
  initialised (session o) = true.
Proof.
  intros o.
  apply (open_failure_before_parse (FS := file_of_size 100 two_frames)
           (IBA := exact_iba) new_session "in.webp" spec0 false (spec_of o)
           (session o) (HeaderReadFailure "in.webp" 64 28));
    vm_compute; reflexivity.
Defined.

(** C6 at the failing input: a 2 x 2 canvas whose second frame is 1 x 1.
    [open] returns true; the seek to subimage 1 returns true and holds the
    4 bytes the decoder produced; rows 0 and 1 pass the check against the
    canvas height 2, and the copy of [m_scanline_size = 8] bytes runs
    beyond the raster. Row 2 is refused. *)
Theorem small_frame_read_overruns :
  let s := session (opened small_second_frame exact_iba) in
  let s1 := session (seek_subimage 1 0 s) in
  let data := [0; 0; 0; 0; 0; 0; 0; 0] in
  fst <$> result (opened small_second_frame exact_iba) = Some true ∧
  height (m_spec s) = 2 ∧ m_scanline_size s = 8 ∧
  seek_subimage 1 0 s = Ret (true, s1) ∧
  raw_image s1 = Some [255; 0; 0; 255] ∧
  read_native_scanline 1 0 0 data s = Undefined ∧
  read_native_scanline 1 0 1 data s = Undefined ∧
  read_native_scanline 1 0 2 data s = Ret (false, data, s1).
Proof. vm_compute. repeat split; reflexivity. Qed.

(** When it is the first frame that is smaller than the canvas, [open]
    itself runs the pixel operations beyond the raster. *)
Example small_first_frame_open_overruns :
  opened small_first_frame exact_iba = Undefined.
Proof. vm_compute. reflexivity. Qed.

(** The messages of the early failures. *)
Example early_failure_messages :
  errors (session (opened_in no_regular_file exact_iba))
  = [NotARegularFile "in.webp"] ∧
  errors (session (opened_in (file_of_size (2 ^ 64 - 1) two_frames) exact_iba))
  = [FailedToGetSize "in.webp"] ∧
  errors (session (opened_in (file_system eleven_bytes) exact_iba))
  = [FileSizeLessThanHeader "in.webp"] ∧
  errors (session (opened_in (unreadable_file two_frames) exact_iba))
  = [CouldNotOpenFile "in.webp"] ∧
  errors (session (opened_in (file_of_size 100 two_frames) exact_iba))
  = [HeaderReadFailure "in.webp" 64 28].
Proof. vm_compute. repeat split; reflexivity. Qed.

End Coverage.
